(** * Smart Second Brain backend: router, handlers and their contract

    A shallow embedding of [main.py] and [schemas.py].

    - Python strings are Rocq [string]s whose characters are read as the
      code points 0..255; [lower] is [str.lower] on that range.
    - A Python [dict] with string keys is a [gmap string value]; a [set]
      of strings is a [gset string].
    - The handlers talk to the [database] module through two calls,
      [create_document] and [get_documents].  A handler is a small tree
      of such calls ([prog]); [run] executes it against any
      implementation of the [Database] interface.
    - [database.py] is not part of the sources at hand: [Store] models
      it from the design document, as collections of Thoughts under
      fresh ObjectIds. *)

From Stdlib Require Import ZArith NArith Ascii String List Bool Lia.
From stdpp Require Import base decidable option list gmap strings fin_maps.

Local Open Scope string_scope.
Local Open Scope Z_scope.

(** ** Python strings *)

Module PyStr.

(** [c.lower()] for one code point below 256: the letters A-Z and the
    accented capitals U+00C0..U+00DE (the sign U+00D7 apart) move up by
    32, every other code point stays. *)
Definition lower_char (c : ascii) : ascii :=
  let n := N_of_ascii c in
  if ((65 <=? n) && (n <=? 90)
      || (192 <=? n) && (n <=? 222) && negb (n =? 215))%N
  then ascii_of_N (n + 32)
  else c.

(** [s.lower()] *)
Fixpoint lower (s : string) : string :=
  match s with
  | EmptyString => EmptyString
  | String c s' => String (lower_char c) (lower s')
  end.

(** [hay.startswith(needle)] *)
Fixpoint startswith (needle hay : string) : bool :=
  match needle, hay with
  | EmptyString, _ => true
  | String _ _, EmptyString => false
  | String a n', String b h' => Ascii.eqb a b && startswith n' h'
  end.

(** [needle in hay] on strings: [needle] occurs at some offset. *)
Fixpoint contains (needle hay : string) : bool :=
  startswith needle hay
  || match hay with
     | EmptyString => false
     | String _ h' => contains needle h'
     end.

(** Truth value of a string: only the empty string is falsy. *)
Definition truthy (s : string) : bool :=
  match s with EmptyString => false | String _ _ => true end.

End PyStr.

(** ** The router *)

(** [x or d] for an optional string: [None] and the empty string are
    both falsy. *)
Definition or_str (x : option string) (d : string) : string :=
  match x with
  | Some s => if PyStr.truthy s then s else d
  | None => d
  end.

(** [x or d] for an optional list: [None] and the empty list are falsy. *)
Definition or_list {A} (x : option (list A)) (d : list A) : list A :=
  match x with
  | Some (a :: l) => a :: l
  | Some [] | None => d
  end.

(** [any(t in text_l for t in kws)] *)
Definition any_in (text_l : string) (kws : list string) : bool :=
  existsb (fun t => PyStr.contains t text_l) kws.

(** [set([t.lower() for t in (tags or [])])] *)
Definition tagset_of (tags : option (list string)) : gset string :=
  list_to_set (map PyStr.lower (or_list tags [])).

(** [k in tagset] *)
Definition in_set (k : string) (tagset : gset string) : bool :=
  bool_decide (k ∈ tagset).

Definition smart_route_folder
    (text : option string) (tags : option (list string)) : string :=
  let text_l := PyStr.lower (or_str text "") in
  let tagset := tagset_of tags in
  if any_in text_l ["todo"; "task"; "next"; "due"; "deadline"]
     || in_set "task" tagset then "tasks"
  else if any_in text_l ["idea"; "concept"; "brainstorm"; "inspiration"]
     || in_set "idea" tagset then "ideas"
  else if any_in text_l ["meeting"; "call"; "note"; "summary"]
     || in_set "notes" tagset then "notes"
  else if any_in text_l ["article"; "read"; "bookmark"; "link"]
     || in_set "read" tagset then "reads"
  else "inbox".

(** ** Values stored in documents *)

(** A [bson.ObjectId]: twelve bytes, held as the number they spell. *)
Record ObjectId := { oid_value : N }.

Definition hex_digit (n : N) : ascii :=
  match String.get (N.to_nat n) "0123456789abcdef" with
  | Some c => c
  | None => "0"%char
  end.

(** The [width] lowest hexadecimal digits of [n], most significant first. *)
Fixpoint hex_fixed (width : nat) (n : N) : string :=
  match width with
  | O => EmptyString
  | S w => hex_fixed w (n / 16) ++ String (hex_digit (n mod 16)) EmptyString
  end.

#[local] Set Warnings "-register-all".

(** What a document field can hold. *)
Inductive value :=
| VNone
| VBool (b : bool)
| VStr (s : string)
| VOid (o : ObjectId)
| VDatetime (t : Z)
| VList (l : list value)
| VDict (m : list (string * value)).
#[local] Set Warnings "register-all".

Abbreviation dict := (gmap string value).

(** Python's [str()], as an interface. *)
Class Str (A : Type) := str : A -> string.

(** [str(ObjectId)] is its 24-digit lowercase hexadecimal form. *)
#[export] Instance str_oid : Str ObjectId := fun o => hex_fixed 24 (oid_value o).

(** The text Python prints for a datetime, a list or a dict.  No handler
    looks at it, so it stays a parameter of the model. *)
Class Repr := repr : value -> string.

#[export] Instance str_value `{Repr} : Str value := fun v =>
  match v with
  | VNone => "None"
  | VBool true => "True"
  | VBool false => "False"
  | VStr s => s
  | VOid o => str o
  | VDatetime _ | VList _ | VDict _ => repr v
  end.

(** Truth value of an object, as [if x:] tests it. *)
Definition truthy (v : value) : bool :=
  match v with
  | VNone => false
  | VBool b => b
  | VStr s => PyStr.truthy s
  | VOid _ | VDatetime _ => true
  | VList l => match l with [] => false | _ => true end
  | VDict m => match m with [] => false | _ => true end
  end.

(** ** schemas.py and the request model *)

Module Folder.
Record t := {
  name : string;
  key : string;
  color : string;
  icon : string;
  priority : Z }.
End Folder.

Module Thought.
Record t := {
  title : option string;
  content : option string;
  modality : string;
  source_url : option string;
  image_data_url : option string;
  tags : list string;
  folder : option string;
  meta : list (string * value);
  pinned : bool;
  status : string;
  created_at : option Z;
  updated_at : option Z }.
End Thought.

Module ThoughtCreate.
Record t := {
  title : option string;
  content : option string;
  modality : string;
  source_url : option string;
  image_data_url : option string;
  tags : option (list string) }.
End ThoughtCreate.

(** ** Exceptions and responses *)

Record Exception := { exc_message : string }.

#[export] Instance str_exception : Str Exception := exc_message.

Module HTTPException.
Record t := { status_code : Z; detail : string }.
End HTTPException.

Module IngestResponse.
Record t := { ok : bool; id : string; folder : string }.
End IngestResponse.

Module ListResponse.
Record t := { ok : bool; items : list dict }.
End ListResponse.

(** ** The database interface and handler programs *)

(** The two functions [main.py] imports from [database], over a store
    state [S]: each either raises or returns, and leaves a new state. *)
Class Database (S : Type) := {
  create_document : string -> Thought.t -> S -> (Exception + string) * S;
  get_documents : string -> dict -> Z -> S -> (Exception + list dict) * S }.

(** One call made to the database. *)
Inductive db_call :=
| CalledCreate (coll : string) (data : Thought.t)
| CalledGet (coll : string) (flt : dict) (limit : Z).

(** A handler body: it returns, raises an HTTP error, or calls the
    database and goes on with what the call returned or raised. *)
Inductive prog (A : Type) :=
| Ret (a : A)
| Raise (e : HTTPException.t)
| CreateDocument (coll : string) (data : Thought.t)
    (k : Exception + string -> prog A)
| GetDocuments (coll : string) (flt : dict) (limit : Z)
    (k : Exception + list dict -> prog A).

Arguments Ret {A} a.
Arguments Raise {A} e.
Arguments CreateDocument {A} coll data k.
Arguments GetDocuments {A} coll flt limit k.

(** Outcome of a request: the response or the HTTP error, the store
    afterwards, and the database calls made, in order. *)
Record outcome (S A : Type) := Outcome {
  result : HTTPException.t + A;
  final : S;
  calls : list db_call }.

Arguments Outcome {S A} result final calls.
Arguments result {S A} o.
Arguments final {S A} o.
Arguments calls {S A} o.

Fixpoint run_from {S A} `{Database S} (p : prog A) (s : S) (log : list db_call)
    : outcome S A :=
  match p with
  | Ret a => Outcome (inr a) s log
  | Raise e => Outcome (inl e) s log
  | CreateDocument coll data k =>
      let '(r, s') := create_document coll data s in
      run_from (k r) s' (log ++ [CalledCreate coll data])
  | GetDocuments coll flt limit k =>
      let '(r, s') := get_documents coll flt limit s in
      run_from (k r) s' (log ++ [CalledGet coll flt limit])
  end.

Definition run {S A} `{Database S} (p : prog A) (s : S) : outcome S A :=
  run_from p s [].

(** ** main.py: the handlers *)

Definition folders : list Folder.t :=
  [ {| Folder.key := "inbox"; Folder.name := "Inbox"; Folder.color := "#94a3b8";
       Folder.icon := "inbox"; Folder.priority := 0 |};
    {| Folder.key := "ideas"; Folder.name := "Ideas"; Folder.color := "#22c55e";
       Folder.icon := "sparkles"; Folder.priority := 3 |};
    {| Folder.key := "tasks"; Folder.name := "Tasks"; Folder.color := "#3b82f6";
       Folder.icon := "check-circle"; Folder.priority := 4 |};
    {| Folder.key := "notes"; Folder.name := "Notes"; Folder.color := "#f59e0b";
       Folder.icon := "notepad"; Folder.priority := 2 |};
    {| Folder.key := "reads"; Folder.name := "Reads"; Folder.color := "#ec4899";
       Folder.icon := "book-open"; Folder.priority := 1 |} ].

Definition get_folders : prog (list Folder.t) := Ret folders.

(** [x in l] on a list of strings. *)
Definition in_list (x : string) (l : list string) : bool :=
  existsb (String.eqb x) l.

(** The [Thought(...)] built from a payload and its folder; the fields
    not given take the defaults of the schema. *)
Definition new_thought (payload : ThoughtCreate.t) (folder : string) : Thought.t :=
  {| Thought.title := ThoughtCreate.title payload;
     Thought.content := ThoughtCreate.content payload;
     Thought.modality := ThoughtCreate.modality payload;
     Thought.source_url := ThoughtCreate.source_url payload;
     Thought.image_data_url := ThoughtCreate.image_data_url payload;
     Thought.tags := or_list (ThoughtCreate.tags payload) [];
     Thought.folder := Some folder;
     Thought.meta := [("routed_by", VStr "heuristic-v0")];
     Thought.pinned := false;
     Thought.status := "active";
     Thought.created_at := None;
     Thought.updated_at := None |}.

Definition ingest_thought (payload : ThoughtCreate.t) : prog IngestResponse.t :=
  if negb (in_list (ThoughtCreate.modality payload) ["text"; "image"; "link"; "voice"])
  then Raise {| HTTPException.status_code := 400;
                HTTPException.detail := "Unsupported modality" |}
  else
    let folder := smart_route_folder (ThoughtCreate.content payload)
                                     (ThoughtCreate.tags payload) in
    let doc := new_thought payload folder in
    CreateDocument "thought" doc (fun r =>
      match r with
      | inr inserted_id =>
          Ret {| IngestResponse.ok := true;
                 IngestResponse.id := inserted_id;
                 IngestResponse.folder := folder |}
      | inl e =>
          Raise {| HTTPException.status_code := 500;
                   HTTPException.detail := str e |}
      end).

(** The body of the loop over the fetched documents:
    [if d.get("_id"): d["id"] = str(d.pop("_id"))]. *)
Definition id_to_str `{Repr} (d : dict) : dict :=
  match d !! "_id" with
  | Some v => if truthy v then <["id" := VStr (str v)]> (delete "_id" d) else d
  | None => d
  end.

(** What the listing promises of a record: a non-empty string under
    ["id"], nothing under ["_id"], and no ObjectId in any field. *)
Definition normalized (d : dict) : Prop :=
  (exists j, d !! "id" = Some (VStr j) /\ j <> "")
  /\ d !! "_id" = None
  /\ forall k o, d !! k <> Some (VOid o).

(** [{"folder": folder} if folder else {}] *)
Definition folder_filter (folder : option string) : dict :=
  match folder with
  | Some f => if PyStr.truthy f then {["folder" := VStr f]} else ∅
  | None => ∅
  end.

Definition list_thoughts `{Repr} (folder : option string) (limit : Z)
    : prog ListResponse.t :=
  let flt := folder_filter folder in
  GetDocuments "thought" flt limit (fun r =>
    match r with
    | inr docs =>
        Ret {| ListResponse.ok := true;
               ListResponse.items := map id_to_str docs |}
    | inl e =>
        Raise {| HTTPException.status_code := 500;
                 HTTPException.detail := str e |}
    end).

(** ** The document store behind [database] *)

Module Store.

(** Modelled from the spec: the missing [database.py], here the
    equality test a query filter applies to a field.  Embedded
    documents and lists compare entry by entry, in order. *)
Fixpoint value_eqb (a b : value) : bool :=
  match a, b with
  | VNone, VNone => true
  | VBool x, VBool y => Bool.eqb x y
  | VStr x, VStr y => String.eqb x y
  | VOid x, VOid y => (oid_value x =? oid_value y)%N
  | VDatetime x, VDatetime y => (x =? y)%Z
  | VList l1, VList l2 =>
      (fix all2 (l1 l2 : list value) : bool :=
         match l1, l2 with
         | [], [] => true
         | x :: l1', y :: l2' => value_eqb x y && all2 l1' l2'
         | _, _ => false
         end) l1 l2
  | VDict m1, VDict m2 =>
      (fix all2 (m1 m2 : list (string * value)) : bool :=
         match m1, m2 with
         | [], [] => true
         | (k1, x) :: m1', (k2, y) :: m2' =>
             String.eqb k1 k2 && value_eqb x y && all2 m1' m2'
         | _, _ => false
         end) m1 m2
  | _, _ => false
  end.

(** Modelled from the spec: the missing [database.py], here one stored
    Thought with the identifier the store gave it. *)
Record stored := { stored_id : ObjectId; stored_doc : Thought.t }.

(** Modelled from the spec: the missing [database.py], here its state.
    Named collections of stored documents in insertion order, and the
    next identifier to hand out. *)
Record t := {
  collections : gmap string (list stored);
  next_oid : N }.

Definition collection (s : t) (coll : string) : list stored :=
  default [] (collections s !! coll).

Definition opt_str (o : option string) : value :=
  match o with Some x => VStr x | None => VNone end.

Definition opt_datetime (o : option Z) : value :=
  match o with Some x => VDatetime x | None => VNone end.

(** Modelled from the spec: the missing [database.py], here the
    document written for a Thought: the full record, one key per field
    of the schema. *)
Definition model_dump (d : Thought.t) : dict :=
  list_to_map
    [ ("title", opt_str (Thought.title d));
      ("content", opt_str (Thought.content d));
      ("modality", VStr (Thought.modality d));
      ("source_url", opt_str (Thought.source_url d));
      ("image_data_url", opt_str (Thought.image_data_url d));
      ("tags", VList (map VStr (Thought.tags d)));
      ("folder", opt_str (Thought.folder d));
      ("meta", VDict (Thought.meta d));
      ("pinned", VBool (Thought.pinned d));
      ("status", VStr (Thought.status d));
      ("created_at", opt_datetime (Thought.created_at d));
      ("updated_at", opt_datetime (Thought.updated_at d)) ].

(** Modelled from the spec: the missing [database.py], here a stored
    document as a query hands it out: its fields, and the store's
    identifier under ["_id"], the key [list_thoughts] reads. *)
Definition document (r : stored) : dict :=
  <["_id" := VOid (stored_id r)]> (model_dump (stored_doc r)).

(** Modelled from the spec: the missing [database.py], here filter
    application: a document passes when every key of the filter is a
    field of the document with an equal value. *)
Definition matches (flt d : dict) : bool :=
  forallb (fun kv => match d !! kv.1 with
                     | Some w => value_eqb w kv.2
                     | None => false
                     end)
          (map_to_list flt).

(** Modelled from the spec: the missing [database.py], here
    [insert(collection_name, document) -> generated_id]: assigns a fresh
    identifier, writes the full record at the end of the collection and
    returns the identifier as a string.  When the collection is
    unreachable ([outage] holds the message of the failure) it raises and
    writes nothing. *)
Definition insert (outage : option string)
    (coll : string) (data : Thought.t) (s : t) : (Exception + string) * t :=
  match outage with
  | Some msg => (inl {| exc_message := msg |}, s)
  | None =>
      let o := {| oid_value := next_oid s |} in
      let r := {| stored_id := o; stored_doc := data |} in
      (inr (str o),
       {| collections := <[coll := (collection s coll ++ [r])%list]> (collections s);
          next_oid := next_oid s + 1 |})
  end.

(** Modelled from the spec: the missing [database.py], here
    [query(collection_name, filter, limit) -> sequence of documents]:
    the documents of the collection that pass the filter, in insertion
    order, at most [limit] of them; raises when the collection is
    unreachable. *)
Definition query (outage : option string)
    (coll : string) (flt : dict) (limit : Z) (s : t) : (Exception + list dict) * t :=
  match outage with
  | Some msg => (inl {| exc_message := msg |}, s)
  | None =>
      (inr (take (Z.to_nat limit)
              (List.filter (matches flt) (map document (collection s coll)))),
       s)
  end.

(** Modelled from the spec: the missing [database.py], here the two
    functions [main.py] imports, when the collection is reachable. *)
#[global] Instance database : Database t := {
  create_document := insert None;
  get_documents := query None }.

(** Modelled from the spec: the missing [database.py], here the same
    two functions when the collection is unreachable and fails with
    [msg]. *)
Definition unreachable (msg : string) : Database t := {|
  create_document := insert (Some msg);
  get_documents := query (Some msg) |}.

Definition empty : t :=
  {| collections := ∅; next_oid := 0 |}.

(** The stored document was filed under folder [f]. *)
Definition in_folder (f : string) (r : stored) : bool :=
  match Thought.folder (stored_doc r) with
  | Some g => String.eqb g f
  | None => false
  end.

(** Identifiers are twelve bytes, and those handed out so far lie below
    the next one: what [insert] maintains from [empty] on. *)
Definition fresh_ids (s : t) : Prop :=
  (next_oid s < 2 ^ 96)%N
  /\ forall coll r, r ∈ collection s coll ->
       (oid_value (stored_id r) < next_oid s)%N.

End Store.

(** Printing of containers chosen for the worked examples. *)
Definition no_repr : Repr := fun _ => "".

Definition sample_payload (content : string) (tags : list string) (modality : string)
    : ThoughtCreate.t :=
  {| ThoughtCreate.title := None;
     ThoughtCreate.content := Some content;
     ThoughtCreate.modality := modality;
     ThoughtCreate.source_url := None;
     ThoughtCreate.image_data_url := None;
     ThoughtCreate.tags := Some tags |}.

Definition store1 : Store.t :=
  final (run (ingest_thought (sample_payload "todo: water plants" [] "text")) Store.empty).

Definition store2 : Store.t :=
  final (run (ingest_thought (sample_payload "an article on ferns" ["Read"] "link")) store1).

(** ** The routing policy as the design states it *)

(** One routing rule: it holds when the lowercased content contains one
    of the keywords or the tag set contains the tag. *)
Record rule := {
  rule_keywords : list string;
  rule_tag : string;
  rule_folder : string }.

Definition tasks_rule : rule :=
  {| rule_keywords := ["todo"; "task"; "next"; "due"; "deadline"];
     rule_tag := "task"; rule_folder := "tasks" |}.
Definition ideas_rule : rule :=
  {| rule_keywords := ["idea"; "concept"; "brainstorm"; "inspiration"];
     rule_tag := "idea"; rule_folder := "ideas" |}.
Definition notes_rule : rule :=
  {| rule_keywords := ["meeting"; "call"; "note"; "summary"];
     rule_tag := "notes"; rule_folder := "notes" |}.
Definition reads_rule : rule :=
  {| rule_keywords := ["article"; "read"; "bookmark"; "link"];
     rule_tag := "read"; rule_folder := "reads" |}.

(** The rules in priority order. *)
Definition rules : list rule := [tasks_rule; ideas_rule; notes_rule; reads_rule].

Definition rule_holds (text_l : string) (tagset : gset string) (r : rule) : bool :=
  any_in text_l (rule_keywords r) || in_set (rule_tag r) tagset.

(** First match wins; ["inbox"] when no rule holds. *)
Definition first_match (rs : list rule) (text_l : string) (tagset : gset string)
    : string :=
  match find (rule_holds text_l tagset) rs with
  | Some r => rule_folder r
  | None => "inbox"
  end.

(** The five keys of the registry, as the design lists them. *)
Definition registry_keys : list string :=
  ["inbox"; "reads"; "notes"; "ideas"; "tasks"].

(** ** main.py: the registry as a lookup, and the health check *)

(** The priority the registry of [get_folders] gives to a key, if it
    lists the key. *)
Definition folder_priority (k : string) : option Z :=
  match find (fun f => String.eqb (Folder.key f) k) folders with
  | Some f => Some (Folder.priority f)
  | None => None
  end.

(** [s[:n]] on a string: its first [n] characters, all of it when it is
    shorter. *)
Fixpoint str_take (n : nat) (s : string) : string :=
  match n, s with
  | O, _ => EmptyString
  | Datatypes.S _, EmptyString => EmptyString
  | Datatypes.S n', String c s' => String c (str_take n' s')
  end.

(** The values [test_database] writes under ["database"].  The literals
    start with a symbol outside the code points of the string model, so
    each is a constructor: "Not Available" (the initial value),
    "Available", "Not Configured", and "Error: " followed by [msg]. *)
Inductive database_status :=
| DbNotAvailable
| DbAvailable
| DbNotConfigured
| DbError (msg : string).

(** The values written under ["connection_status"]. *)
Inductive connection_status :=
| NotConnected
| Connected.

(** The dict [test_database] returns; ["backend"] is always the literal
    "Running" and carries no information. *)
Module TestResponse.
Record t := {
  database : database_status;
  connection : connection_status;
  collections : list string }.
End TestResponse.

(** The handle [db] imported from [database], as far as [test_database]
    uses it: what [db.list_collection_names()] returns or raises. *)
Record DbHandle := { list_collection_names : Exception + list string }.

(** [test_database], for [db] absent ([None]) or present.  The response
    is updated in place, so an exception raised by the listing finds the
    two fields already written. *)
Definition test_database (db : option DbHandle) : TestResponse.t :=
  let response := {| TestResponse.database := DbNotAvailable;
                     TestResponse.connection := NotConnected;
                     TestResponse.collections := [] |} in
  match db with
  | Some h =>
      let response := {| TestResponse.database := DbAvailable;
                         TestResponse.connection := TestResponse.connection response;
                         TestResponse.collections := TestResponse.collections response |} in
      let response := {| TestResponse.database := TestResponse.database response;
                         TestResponse.connection := Connected;
                         TestResponse.collections := TestResponse.collections response |} in
      match list_collection_names h with
      | inr names =>
          {| TestResponse.database := TestResponse.database response;
             TestResponse.connection := TestResponse.connection response;
             TestResponse.collections := take 10 names |}
      | inl e =>
          {| TestResponse.database := DbError (str_take 80 (str e));
             TestResponse.connection := TestResponse.connection response;
             TestResponse.collections := TestResponse.collections response |}
      end
  | None =>
      {| TestResponse.database := DbNotConfigured;
         TestResponse.connection := TestResponse.connection response;
         TestResponse.collections := TestResponse.collections response |}
  end.

(** * Properties *)

(** ** Strings *)

Section StringFacts.

Import PyStr.

Lemma lower_char_idem c : lower_char (lower_char c) = lower_char c.
Proof. destruct c as [[] [] [] [] [] [] [] []]; reflexivity. Qed.

Lemma lower_idem s : lower (lower s) = lower s.
Proof.
  induction s as [|c s IH]; simpl; [reflexivity|].
  now rewrite lower_char_idem, IH.
Qed.

Lemma lower_app a b : lower (a ++ b) = lower a ++ lower b.
Proof. induction a as [|c a IH]; simpl; [reflexivity|]. now rewrite IH. Qed.

Lemma startswith_spec needle hay :
  startswith needle hay = true <-> exists post, hay = needle ++ post.
Proof.
  revert hay. induction needle as [|a n IH]; intros hay; simpl.
  - split; [intros _; now exists hay | reflexivity].
  - destruct hay as [|b h].
    + split; [discriminate | intros [post Hp]; discriminate].
    + rewrite andb_true_iff, Ascii.eqb_eq, IH. split.
      * intros [-> [post ->]]. now exists post.
      * intros [post Hp]. injection Hp as -> ->. split; [reflexivity | now exists post].
Qed.

(** [needle in hay] is substring containment: [hay] splits around one
    occurrence of [needle]. *)
Lemma contains_spec needle hay :
  contains needle hay = true <-> exists pre post, hay = pre ++ needle ++ post.
Proof.
  induction hay as [|c h IH].
  - simpl. rewrite orb_false_r, startswith_spec. split.
    + intros [post Hp]. now exists EmptyString, post.
    + intros [pre [post Hp]]. destruct pre; [now exists post | discriminate].
  - cbn [contains]. rewrite orb_true_iff, startswith_spec, IH. split.
    + intros [[post Hp] | [pre [post Hp]]].
      * now exists EmptyString, post.
      * exists (String c pre), post. simpl. now rewrite Hp.
    + intros [pre [post Hp]]. destruct pre as [|c' pre].
      * left. now exists post.
      * right. simpl in Hp. injection Hp as _ ->. now exists pre, post.
Qed.

Lemma or_str_some s : or_str (Some s) "" = s.
Proof. now destruct s. Qed.

End StringFacts.

(** ** The router *)

Section Router.

Import PyStr.

Implicit Types (text : option string) (tags : option (list string)).
Implicit Types (text_l : string) (tagset : gset string) (r : rule).

Lemma or_list_some {A} (l : list A) : or_list (Some l) [] = l.
Proof. now destruct l. Qed.

(** The chain of [if]s of [smart_route_folder] is first-match over
    [rules]. *)
Lemma route_first_match text tags :
  smart_route_folder text tags
  = first_match rules (lower (or_str text "")) (tagset_of tags).
Proof.
  unfold smart_route_folder, first_match, rules.
  cbn [find]. unfold rule_holds.
  cbn [rule_keywords rule_tag rule_folder tasks_rule ideas_rule notes_rule reads_rule].
  repeat (destruct (_ || _); [reflexivity|]). reflexivity.
Qed.

Lemma first_match_at rs pre r post text_l tagset :
  rs = (pre ++ r :: post)%list ->
  Forall (fun q => rule_holds text_l tagset q = false) pre ->
  rule_holds text_l tagset r = true ->
  first_match rs text_l tagset = rule_folder r.
Proof.
  intros -> Hpre Hr. unfold first_match.
  induction Hpre as [|q pre Hq _ IH]; cbn [app find].
  - now rewrite Hr.
  - now rewrite Hq.
Qed.

Lemma first_match_none rs text_l tagset :
  Forall (fun q => rule_holds text_l tagset q = false) rs ->
  first_match rs text_l tagset = "inbox".
Proof.
  unfold first_match. induction 1 as [|q rs Hq _ IH]; cbn [find].
  - reflexivity.
  - now rewrite Hq.
Qed.

Lemma any_in_intro text_l kws k :
  In k kws -> contains k text_l = true -> any_in text_l kws = true.
Proof.
  intros Hk Hc. unfold any_in. apply existsb_exists. now exists k.
Qed.

Lemma in_tagset k tags :
  in_set k (tagset_of tags) = true <-> k ∈ map lower (or_list tags []).
Proof.
  unfold in_set, tagset_of. rewrite bool_decide_eq_true.
  apply elem_of_list_to_set.
Qed.

Lemma rule_holds_keyword text_l tagset r k :
  In k (rule_keywords r) -> contains k text_l = true ->
  rule_holds text_l tagset r = true.
Proof.
  intros Hk Hc. unfold rule_holds.
  now rewrite (any_in_intro _ _ _ Hk Hc).
Qed.

Lemma rule_holds_tag text_l tags r :
  rule_tag r ∈ map lower (or_list tags []) ->
  rule_holds text_l (tagset_of tags) r = true.
Proof.
  intros Ht. unfold rule_holds.
  apply in_tagset in Ht. rewrite Ht. apply orb_true_r.
Qed.

Lemma tasks_first text tags :
  rule_holds (lower (or_str text "")) (tagset_of tags) tasks_rule = true ->
  smart_route_folder text tags = "tasks".
Proof.
  intros H. rewrite route_first_match.
  now apply (first_match_at rules [] tasks_rule [ideas_rule; notes_rule; reads_rule]).
Qed.

Lemma tagset_same_elements l1 l2 :
  (forall x, x ∈ map lower l1 <-> x ∈ map lower l2) ->
  tagset_of (Some l1) = tagset_of (Some l2).
Proof.
  intros H. unfold tagset_of. rewrite !or_list_some.
  apply set_eq. intros x. rewrite !elem_of_list_to_set. apply H.
Qed.

End Router.

Example route_deadline :
  smart_route_folder (Some "I need to finish this task by the deadline") (Some [])
  = "tasks".
Proof. vm_compute. reflexivity. Qed.

Example route_meeting :
  smart_route_folder (Some "let's schedule a meeting") (Some []) = "notes".
Proof. vm_compute. reflexivity. Qed.

(** C1.  Whatever the content and the tag list, present or absent,
    [smart_route_folder] returns a key of the folder registry served by
    [get_folders], which is one of inbox, reads, notes, ideas, tasks; with
    neither content nor tags it returns ["inbox"]. *)
Theorem C1_route_in_registry (text : option string) (tags : option (list string)) :
  smart_route_folder text tags ∈ map Folder.key folders
  /\ smart_route_folder text tags ∈ registry_keys
  /\ smart_route_folder None None = "inbox".
Proof.
  assert (Hcases : In (smart_route_folder text tags)
                      ["tasks"; "ideas"; "notes"; "reads"; "inbox"]).
  { unfold smart_route_folder.
    repeat (destruct (_ || _); [simpl; tauto|]). simpl; tauto. }
  split; [|split].
  - apply list_elem_of_In. cbn [map folders Folder.key]. simpl in *. tauto.
  - apply list_elem_of_In. unfold registry_keys. simpl in *. tauto.
  - reflexivity.
Qed.

(** C2.  The rules are tried in the order tasks, ideas, notes, reads and
    the folder of the first one that holds is returned, ["inbox"] when
    none holds.  So a content matching a tasks keyword and an ideas
    keyword goes to ["tasks"]: "todo: brainstorm ideas" is routed to
    tasks, "just a brainstorm of ideas" to ideas. *)
Theorem C2_priority_order :
  map rule_folder rules = ["tasks"; "ideas"; "notes"; "reads"]
  /\ (forall text tags pre r post,
        rules = (pre ++ r :: post)%list ->
        Forall (fun q => rule_holds (PyStr.lower (or_str text "")) (tagset_of tags) q
                         = false) pre ->
        rule_holds (PyStr.lower (or_str text "")) (tagset_of tags) r = true ->
        smart_route_folder text tags = rule_folder r)
  /\ (forall text tags,
        Forall (fun q => rule_holds (PyStr.lower (or_str text "")) (tagset_of tags) q
                         = false) rules ->
        smart_route_folder text tags = "inbox")
  /\ (forall content tags,
        any_in (PyStr.lower content) (rule_keywords tasks_rule) = true ->
        any_in (PyStr.lower content) (rule_keywords ideas_rule) = true ->
        smart_route_folder (Some content) tags = "tasks")
  /\ smart_route_folder (Some "todo: brainstorm ideas") (Some []) = "tasks"
  /\ smart_route_folder (Some "just a brainstorm of ideas") (Some []) = "ideas".
Proof.
  split; [reflexivity|]. split; [|split; [|split; [|split]]].
  - intros text tags pre r post Hsplit Hpre Hr.
    rewrite route_first_match. eapply first_match_at; eassumption.
  - intros text tags Hnone. rewrite route_first_match.
    now apply first_match_none.
  - intros content tags Htasks _. apply tasks_first.
    rewrite or_str_some. unfold rule_holds. now rewrite Htasks.
  - vm_compute. reflexivity.
  - vm_compute. reflexivity.
Qed.

Lemma C2_priority_order_witness :
  smart_route_folder (Some "TODO: Brainstorm ideas") (Some ["misc"]) = "tasks"
  /\ smart_route_folder (Some "a summary to read") None = "notes".
Proof.
  split.
  - apply (proj1 (proj2 (proj2 (proj2 C2_priority_order)))); vm_compute; reflexivity.
  - apply (proj1 (proj2 C2_priority_order) (Some "a summary to read") None
             [tasks_rule; ideas_rule] notes_rule [reads_rule]).
    + reflexivity.
    + repeat constructor.
    + vm_compute. reflexivity.
Defined.

(** C3.  A keyword matches by substring containment in the lowercased
    content, never by whole words: when the lowercased content splits
    around a keyword of a rule, that rule holds, and the router returns
    the folder of that rule unless a rule before it holds too.  Content
    whose lowercase form contains "deadlines" is routed to tasks through
    "deadline", and a content is routed like its lowercase form. *)
Theorem C3_substring_case_insensitive :
  (forall needle hay,
      PyStr.contains needle hay = true
      <-> exists pre post, hay = pre ++ needle ++ post)
  /\ (forall text tags r k pre post,
        r ∈ rules -> In k (rule_keywords r) ->
        PyStr.lower (or_str text "") = pre ++ k ++ post ->
        rule_holds (PyStr.lower (or_str text "")) (tagset_of tags) r = true)
  /\ (forall text tags before r after k pre post,
        rules = (before ++ r :: after)%list ->
        In k (rule_keywords r) ->
        PyStr.lower (or_str text "") = pre ++ k ++ post ->
        Forall (fun q => rule_holds (PyStr.lower (or_str text "")) (tagset_of tags) q
                         = false) before ->
        smart_route_folder text tags = rule_folder r)
  /\ (forall content tags k pre post,
        In k ["todo"; "task"; "next"; "due"; "deadline"] ->
        PyStr.lower content = pre ++ k ++ post ->
        smart_route_folder (Some content) tags = "tasks")
  /\ (forall content tags pre post,
        PyStr.lower content = pre ++ "deadlines" ++ post ->
        smart_route_folder (Some content) tags = "tasks")
  /\ (forall content tags,
        smart_route_folder (Some (PyStr.lower content)) tags
        = smart_route_folder (Some content) tags).
Proof.
  assert (Htasks : forall content tags k pre post,
             In k ["todo"; "task"; "next"; "due"; "deadline"] ->
             PyStr.lower content = pre ++ k ++ post ->
             smart_route_folder (Some content) tags = "tasks").
  { intros content tags k pre post Hk Hsplit. apply tasks_first.
    rewrite or_str_some. apply (rule_holds_keyword _ _ tasks_rule k Hk).
    apply contains_spec. now exists pre, post. }
  split; [exact contains_spec|].
  split; [|split; [|split; [exact Htasks|split]]].
  - intros text tags r k pre post _ Hk Hsplit.
    apply (rule_holds_keyword _ _ r k Hk).
    apply contains_spec. now exists pre, post.
  - intros text tags before r after k pre post Hrules Hk Hsplit Hbefore.
    rewrite route_first_match.
    apply (first_match_at rules before r after); [assumption..|].
    apply (rule_holds_keyword _ _ r k Hk).
    apply contains_spec. now exists pre, post.
  - intros content tags pre post Hsplit.
    apply (Htasks content tags "deadline" pre ("s" ++ post)).
    + simpl. tauto.
    + rewrite Hsplit. reflexivity.
  - intros content tags. rewrite !route_first_match, !or_str_some.
    now rewrite lower_idem.
Qed.

Lemma C3_substring_case_insensitive_witness :
  smart_route_folder (Some "Two DEADLINES this week") None = "tasks"
  /\ rule_holds (PyStr.lower (or_str (Some "Rereading") "")) (tagset_of None) reads_rule
     = true
  /\ smart_route_folder (Some "Rereading") None = "reads"
  /\ smart_route_folder (Some "Misconceptions") (Some ["read"]) = "ideas"
  /\ smart_route_folder (Some "Footnotes") None = "notes".
Proof.
  split; [|split; [|split; [|split]]].
  - apply (proj1 (proj2 (proj2 (proj2 (proj2 C3_substring_case_insensitive))))
             "Two DEADLINES this week" None "two " " this week").
    vm_compute. reflexivity.
  - apply (proj1 (proj2 C3_substring_case_insensitive)
             (Some "Rereading") None reads_rule "read" "re" "ing").
    + apply list_elem_of_In. simpl. tauto.
    + simpl. tauto.
    + vm_compute. reflexivity.
  - apply (proj1 (proj2 (proj2 C3_substring_case_insensitive))
             (Some "Rereading") None
             [tasks_rule; ideas_rule; notes_rule] reads_rule [] "read" "re" "ing").
    + reflexivity.
    + simpl. tauto.
    + vm_compute. reflexivity.
    + repeat constructor.
  - apply (proj1 (proj2 (proj2 C3_substring_case_insensitive))
             (Some "Misconceptions") (Some ["read"])
             [tasks_rule] ideas_rule [notes_rule; reads_rule]
             "concept" "mis" "ions").
    + reflexivity.
    + simpl. tauto.
    + vm_compute. reflexivity.
    + repeat constructor.
  - apply (proj1 (proj2 (proj2 C3_substring_case_insensitive))
             (Some "Footnotes") None
             [tasks_rule; ideas_rule] notes_rule [reads_rule] "note" "foot" "s").
    + reflexivity.
    + simpl. tauto.
    + vm_compute. reflexivity.
    + repeat constructor.
Defined.

(** C4.  The tag list counts only through the set of its lowercased
    elements: two lists with the same lowercased elements, in any order
    and with any repetition, give the same folder (an absent list counts
    as the empty one).  A tag set holding the tag of a rule makes that
    rule hold whatever the content, so that its folder is returned unless
    a rule of higher priority holds too; empty content tagged "read" is
    routed to ["reads"]. *)
Theorem C4_tags_as_set :
  (forall text l1 l2,
      (forall x, x ∈ map PyStr.lower l1 <-> x ∈ map PyStr.lower l2) ->
      smart_route_folder text (Some l1) = smart_route_folder text (Some l2))
  /\ (forall text, smart_route_folder text None = smart_route_folder text (Some []))
  /\ (forall text tags r,
        r ∈ rules ->
        rule_tag r ∈ map PyStr.lower (or_list tags []) ->
        rule_holds (PyStr.lower (or_str text "")) (tagset_of tags) r = true)
  /\ (forall text tags pre r post,
        rules = (pre ++ r :: post)%list ->
        rule_tag r ∈ map PyStr.lower (or_list tags []) ->
        Forall (fun q => rule_holds (PyStr.lower (or_str text "")) (tagset_of tags) q
                         = false) pre ->
        smart_route_folder text tags = rule_folder r)
  /\ (forall text tags,
        "task" ∈ map PyStr.lower (or_list tags []) ->
        smart_route_folder text tags = "tasks")
  /\ smart_route_folder (Some "") (Some ["read"]) = "reads".
Proof.
  split; [|split; [|split; [|split; [|split]]]].
  - intros text l1 l2 Hsame. rewrite !route_first_match.
    now rewrite (tagset_same_elements l1 l2 Hsame).
  - intros text. reflexivity.
  - intros text tags r _ Htag. now apply rule_holds_tag.
  - intros text tags pre r post Hsplit Htag Hpre.
    rewrite route_first_match.
    eapply first_match_at; [eassumption | assumption | now apply rule_holds_tag].
  - intros text tags Htag. apply tasks_first.
    now apply (rule_holds_tag _ tags tasks_rule).
  - vm_compute. reflexivity.
Qed.

Lemma C4_tags_as_set_witness :
  smart_route_folder (Some "groceries") (Some ["Idea"; "home"; "IDEA"])
  = smart_route_folder (Some "groceries") (Some ["home"; "idea"])
  /\ rule_holds (PyStr.lower (or_str (Some "todo") "")) (tagset_of (Some ["READ"]))
       reads_rule = true
  /\ smart_route_folder (Some "groceries") (Some ["Notes"]) = "notes"
  /\ smart_route_folder (Some "groceries") (Some ["x"; "Task"]) = "tasks".
Proof.
  split; [|split; [|split]].
  - apply (proj1 C4_tags_as_set). intros x. cbn [map PyStr.lower].
    rewrite !elem_of_cons. vm_compute (PyStr.lower_char _). tauto.
  - apply (proj1 (proj2 (proj2 C4_tags_as_set)) (Some "todo") (Some ["READ"]) reads_rule).
    + apply list_elem_of_In. simpl. tauto.
    + apply list_elem_of_In. vm_compute. tauto.
  - apply (proj1 (proj2 (proj2 (proj2 C4_tags_as_set)))
             (Some "groceries") (Some ["Notes"])
             [tasks_rule; ideas_rule] notes_rule [reads_rule]).
    + reflexivity.
    + apply list_elem_of_In. vm_compute. tauto.
    + repeat constructor.
  - apply (proj1 (proj2 (proj2 (proj2 (proj2 C4_tags_as_set))))).
    apply list_elem_of_In. vm_compute. tauto.
Defined.

(** ** The handlers, against any database *)

Lemma in_list_spec x l : in_list x l = true <-> x ∈ l.
Proof.
  unfold in_list. rewrite existsb_exists, list_elem_of_In. split.
  - intros [y [Hy Heq]]. apply String.eqb_eq in Heq. now subst.
  - intros Hx. exists x. split; [assumption | apply String.eqb_refl].
Qed.

(** A valid payload makes exactly one call: the insert of the routed
    document. *)
Lemma ingest_thought_valid (payload : ThoughtCreate.t) :
  ThoughtCreate.modality payload ∈ ["text"; "image"; "link"; "voice"] ->
  exists k,
    ingest_thought payload
    = CreateDocument "thought"
        (new_thought payload
           (smart_route_folder (ThoughtCreate.content payload)
                               (ThoughtCreate.tags payload))) k
    /\ (forall e, k (inl e) = Raise {| HTTPException.status_code := 500;
                                       HTTPException.detail := str e |})
    /\ (forall i, k (inr i)
                  = Ret {| IngestResponse.ok := true;
                           IngestResponse.id := i;
                           IngestResponse.folder :=
                             smart_route_folder (ThoughtCreate.content payload)
                                                (ThoughtCreate.tags payload) |}).
Proof.
  intros Hm. apply in_list_spec in Hm. unfold ingest_thought. rewrite Hm.
  cbn [negb]. eexists. split; [reflexivity|]. split; reflexivity.
Qed.

(** C5.  A payload whose modality is none of text, image, link, voice is
    refused with the HTTP error 400 "Unsupported modality": the handler
    is that error alone, so that against any database and from any state
    no call is made and the store is left as it was. *)
Theorem C5_invalid_modality_rejected
    {S} `{Database S} (payload : ThoughtCreate.t) (s : S) :
  ThoughtCreate.modality payload ∉ ["text"; "image"; "link"; "voice"] ->
  ingest_thought payload
  = Raise {| HTTPException.status_code := 400;
             HTTPException.detail := "Unsupported modality" |}
  /\ run (ingest_thought payload) s
     = Outcome (inl {| HTTPException.status_code := 400;
                       HTTPException.detail := "Unsupported modality" |}) s [].
Proof.
  intros Hm.
  assert (Hin : in_list (ThoughtCreate.modality payload)
                  ["text"; "image"; "link"; "voice"] = false).
  { apply not_true_is_false. intros Hin. now apply in_list_spec in Hin. }
  unfold ingest_thought. rewrite Hin. cbn [negb]. split; reflexivity.
Qed.

Lemma C5_invalid_modality_rejected_witness :
  run (ingest_thought (sample_payload "todo: call the bank" ["task"] "video")) store2
  = Outcome (inl {| HTTPException.status_code := 400;
                    HTTPException.detail := "Unsupported modality" |}) store2 [].
Proof.
  apply (C5_invalid_modality_rejected
           (sample_payload "todo: call the bank" ["task"] "video") store2).
  intros Hin. apply in_list_spec in Hin. vm_compute in Hin. discriminate.
Defined.

(** C8.  When the insert raises, [ingest_thought] raises an HTTP error
    whose detail is the message of that exception; when the query raises,
    so does [list_thoughts].  In both cases the database was called once
    (no second attempt, no other call) and no response is returned. *)
Theorem C8_persistence_errors_surface {S} `{Database S} `{Repr} :
  (forall (payload : ThoughtCreate.t) (s s' : S) (e : Exception),
      ThoughtCreate.modality payload ∈ ["text"; "image"; "link"; "voice"] ->
      create_document "thought"
        (new_thought payload
           (smart_route_folder (ThoughtCreate.content payload)
                               (ThoughtCreate.tags payload))) s = (inl e, s') ->
      run (ingest_thought payload) s
      = Outcome (inl {| HTTPException.status_code := 500;
                        HTTPException.detail := exc_message e |}) s'
          [CalledCreate "thought"
             (new_thought payload
                (smart_route_folder (ThoughtCreate.content payload)
                                    (ThoughtCreate.tags payload)))])
  /\ (forall (folder : option string) (limit : Z) (s s' : S) (e : Exception),
        get_documents "thought" (folder_filter folder) limit s = (inl e, s') ->
        run (list_thoughts folder limit) s
        = Outcome (inl {| HTTPException.status_code := 500;
                          HTTPException.detail := exc_message e |}) s'
            [CalledGet "thought" (folder_filter folder) limit]).
Proof.
  split.
  - intros payload s s' e Hm Hfail.
    destruct (ingest_thought_valid payload Hm) as [k [-> [Hk _]]].
    unfold run. cbn [run_from]. rewrite Hfail, Hk. reflexivity.
  - intros folder limit s s' e Hfail.
    unfold run, list_thoughts. cbn [run_from]. rewrite Hfail. reflexivity.
Qed.

(** C9.  [get_folders] answers with the same five entries from any state
    of any database, without calling it: inbox, reads, notes, ideas and
    tasks, named Inbox, Reads, Notes, Ideas and Tasks, with priorities 0
    to 4 in that order of keys.  Neither ingesting nor listing changes
    the answer. *)
Theorem C9_fixed_registry {S} `{Database S} `{Repr} (s : S) :
  run get_folders s = Outcome (inr folders) s []
  /\ length folders = 5%nat
  /\ map (fun f => (Folder.key f, Folder.name f, Folder.priority f)) folders
     ≡ₚ [ ("inbox", "Inbox", 0); ("reads", "Reads", 1); ("notes", "Notes", 2);
          ("ideas", "Ideas", 3); ("tasks", "Tasks", 4) ]
  /\ (forall payload,
        result (run get_folders (final (run (ingest_thought payload) s)))
        = inr folders)
  /\ (forall folder limit,
        result (run get_folders (final (run (list_thoughts folder limit) s)))
        = inr folders).
Proof.
  split; [reflexivity|]. split; [reflexivity|]. split; [|split; reflexivity].
  cbn [map folders Folder.key Folder.name Folder.priority].
  apply (bool_decide_unpack _). vm_compute. reflexivity.
Qed.

(** C10.  Listing with the folder argument [""] is the same request as
    listing with no folder: the query is made with the empty filter, so
    that the items are whatever the database returns for no filter at
    all, documents of every folder. *)
Theorem C10_empty_folder_is_no_filter {S} `{Database S} `{Repr} (limit : Z) (s : S) :
  folder_filter (Some "") = ∅
  /\ list_thoughts (Some "") limit = list_thoughts None limit
  /\ run (list_thoughts (Some "") limit) s = run (list_thoughts None limit) s
  /\ calls (run (list_thoughts (Some "") limit) s) = [CalledGet "thought" ∅ limit]
  /\ (forall docs s',
        get_documents "thought" ∅ limit s = (inr docs, s') ->
        result (run (list_thoughts (Some "") limit) s)
        = inr {| ListResponse.ok := true;
                 ListResponse.items := map id_to_str docs |}).
Proof.
  split; [reflexivity|]. split; [reflexivity|]. split; [reflexivity|]. split.
  - unfold run, list_thoughts. cbn [run_from folder_filter PyStr.truthy].
    destruct (get_documents "thought" ∅ limit s) as [[e|docs] s']; reflexivity.
  - intros docs s' Hq. unfold run, list_thoughts.
    cbn [run_from folder_filter PyStr.truthy]. rewrite Hq. reflexivity.
Qed.

Lemma C8_persistence_errors_surface_witness :
  @run _ _ (Store.unreachable "connection refused")
    (ingest_thought (sample_payload "todo: call the bank" [] "text")) store2
  = Outcome (inl {| HTTPException.status_code := 500;
                    HTTPException.detail := "connection refused" |}) store2
      [CalledCreate "thought"
         (new_thought (sample_payload "todo: call the bank" [] "text") "tasks")]
  /\ @run _ _ (Store.unreachable "connection refused")
       (@list_thoughts no_repr (Some "tasks") 50) store2
     = Outcome (inl {| HTTPException.status_code := 500;
                       HTTPException.detail := "connection refused" |}) store2
         [CalledGet "thought" {["folder" := VStr "tasks"]} 50].
Proof.
  split.
  - apply (proj1 (@C8_persistence_errors_surface
                    Store.t (Store.unreachable "connection refused") no_repr)
             (sample_payload "todo: call the bank" [] "text") store2 store2
             {| exc_message := "connection refused" |}).
    + apply in_list_spec. vm_compute. reflexivity.
    + reflexivity.
  - apply (proj2 (@C8_persistence_errors_surface
                    Store.t (Store.unreachable "connection refused") no_repr)
             (Some "tasks") 50 store2 store2
             {| exc_message := "connection refused" |}).
    reflexivity.
Defined.

Lemma C10_empty_folder_is_no_filter_witness :
  result (run (@list_thoughts no_repr (Some "") 50) store2)
  = inr {| ListResponse.ok := true;
           ListResponse.items :=
             map (@id_to_str no_repr)
                 (map Store.document (Store.collection store2 "thought")) |}
  /\ length (Store.collection store2 "thought") = 2%nat.
Proof.
  split; [|vm_compute; reflexivity].
  apply (proj2 (proj2 (proj2 (proj2
           (@C10_empty_folder_is_no_filter Store.t Store.database no_repr 50 store2))))
           (map Store.document (Store.collection store2 "thought")) store2).
  vm_compute. reflexivity.
Defined.

(** ** The handlers, against the document store *)

Section StoreFacts.

Context `{Repr}.

Implicit Types (s : Store.t) (r : Store.stored) (f : string) (d : dict).

Lemma folder_filter_some f :
  f <> "" -> folder_filter (Some f) = {["folder" := VStr f]}.
Proof. intros Hf. destruct f; [congruence | reflexivity]. Qed.

Lemma matches_empty d : Store.matches ∅ d = true.
Proof. unfold Store.matches. now rewrite map_to_list_empty. Qed.

Lemma matches_singleton k v d :
  Store.matches {[k := v]} d
  = match d !! k with Some w => Store.value_eqb w v | None => false end.
Proof.
  unfold Store.matches. rewrite map_to_list_singleton. cbn [forallb fst snd].
  apply andb_true_r.
Qed.

Lemma value_eqb_str (w : value) f : Store.value_eqb w (VStr f) = true <-> w = VStr f.
Proof.
  destruct w; cbn [Store.value_eqb]; try (split; [discriminate | congruence]).
  rewrite String.eqb_eq. split; congruence.
Qed.

Lemma document_folder r :
  Store.document r !! "folder"
  = Some (Store.opt_str (Thought.folder (Store.stored_doc r))).
Proof. reflexivity. Qed.

Lemma matches_document f r :
  Store.matches {["folder" := VStr f]} (Store.document r) = Store.in_folder f r.
Proof.
  rewrite matches_singleton, document_folder. unfold Store.in_folder.
  destruct (Thought.folder (Store.stored_doc r)); reflexivity.
Qed.

Lemma in_folder_spec f r :
  Store.in_folder f r = true <-> Thought.folder (Store.stored_doc r) = Some f.
Proof.
  unfold Store.in_folder. destruct (Thought.folder (Store.stored_doc r)) as [g|].
  - rewrite String.eqb_eq. split; congruence.
  - split; discriminate.
Qed.

(** What [id_to_str] makes of a document of the store: the identifier
    moves from ["_id"] to ["id"], as a string. *)
Lemma id_to_str_document r :
  id_to_str (Store.document r)
  = <["id" := VStr (str (Store.stored_id r))]> (Store.model_dump (Store.stored_doc r)).
Proof.
  unfold id_to_str, Store.document. rewrite lookup_insert_eq.
  cbn [truthy]. now rewrite delete_insert_id.
Qed.

(** A listing on the reachable store: one query, the store untouched. *)
Lemma run_list_thoughts s folder limit :
  run (list_thoughts folder limit) s
  = Outcome
      (inr {| ListResponse.ok := true;
              ListResponse.items :=
                map id_to_str
                  (take (Z.to_nat limit)
                     (List.filter (Store.matches (folder_filter folder))
                        (map Store.document (Store.collection s "thought")))) |})
      s [CalledGet "thought" (folder_filter folder) limit].
Proof.
  reflexivity.
Qed.



End StoreFacts.




(** ** Identifiers *)

Section Identifiers.

Lemma append_last_inj (a b : string) (c d : ascii) :
  a ++ String c "" = b ++ String d "" -> a = b /\ c = d.
Proof.
  revert b. induction a as [|x a IH]; intros [|y b]; cbn [append]; intros Heq.
  - injection Heq as ->. now split.
  - injection Heq as _ Heq. destruct b; discriminate.
  - injection Heq as _ Heq. destruct a; discriminate.
  - injection Heq as -> Heq. destruct (IH b Heq) as [-> ->]. now split.
Qed.

Lemma length_append_one (a : string) (c : ascii) :
  String.length (a ++ String c "") = Datatypes.S (String.length a).
Proof. induction a as [|x a IH]; simpl; [reflexivity | now rewrite IH]. Qed.

Lemma hex_fixed_length w n : String.length (hex_fixed w n) = w.
Proof.
  revert n. induction w as [|w IH]; intros n; cbn [hex_fixed]; [reflexivity|].
  now rewrite length_append_one, IH.
Qed.

Lemma below_16 (x : N) :
  (x < 16)%N ->
  In x [0; 1; 2; 3; 4; 5; 6; 7; 8; 9; 10; 11; 12; 13; 14; 15]%N.
Proof.
  intros Hx. destruct x as [|p]; [simpl; tauto|].
  do 4 (destruct p as [p|p|]; try (simpl; tauto)); exfalso; lia.
Qed.

Lemma hex_digit_inj (x y : N) :
  (x < 16)%N -> (y < 16)%N -> hex_digit x = hex_digit y -> x = y.
Proof.
  intros Hx Hy. apply below_16 in Hx, Hy. cbn [In] in Hx, Hy.
  repeat (destruct Hx as [<-|Hx]); try contradiction;
    repeat (destruct Hy as [<-|Hy]); try contradiction;
    vm_compute; intros Heq; try reflexivity; discriminate.
Qed.

(** Two numbers with the same [w] digits agree below [16 ^ w]. *)
Lemma hex_fixed_inj w n m :
  hex_fixed w n = hex_fixed w m ->
  (n mod 16 ^ N.of_nat w = m mod 16 ^ N.of_nat w)%N.
Proof.
  revert n m. induction w as [|w IH]; intros n m Heq.
  - now rewrite !N.mod_1_r.
  - cbn [hex_fixed] in Heq. apply append_last_inj in Heq as [Hhi Hlo].
    apply IH in Hhi.
    apply hex_digit_inj in Hlo; [|now apply N.mod_lt..].
    rewrite Nat2N.inj_succ, N.pow_succ_r', !N.Div0.mod_mul_r.
    now rewrite Hhi, Hlo.
Qed.

Lemma str_oid_length (o : ObjectId) : String.length (str o) = 24%nat.
Proof. apply hex_fixed_length. Qed.

Lemma str_oid_nonempty (o : ObjectId) : str o <> "".
Proof.
  intros Heq. pose proof (str_oid_length o) as Hlen.
  rewrite Heq in Hlen. discriminate.
Qed.

(** Twelve-byte identifiers print differently. *)
Lemma str_oid_inj (a b : ObjectId) :
  (oid_value a < 2 ^ 96)%N -> (oid_value b < 2 ^ 96)%N ->
  str a = str b -> oid_value a = oid_value b.
Proof.
  intros Ha Hb Heq. apply hex_fixed_inj in Heq.
  change (16 ^ N.of_nat 24)%N with (2 ^ 96)%N in Heq.
  now rewrite !N.mod_small in Heq.
Qed.

End Identifiers.

Section CreateThenList.

Context `{Repr}.

Implicit Types (s : Store.t) (r : Store.stored) (d : dict).

Lemma route_nonempty text tags : smart_route_folder text tags <> "".
Proof.
  unfold smart_route_folder.
  repeat (destruct (_ || _); [discriminate|]). discriminate.
Qed.

(** No field written for a Thought is an ObjectId. *)
Lemma model_dump_no_oid (t : Thought.t) k o :
  Store.model_dump t !! k <> Some (VOid o).
Proof.
  intros Hk. unfold Store.model_dump in Hk.
  apply elem_of_list_to_map_2 in Hk.
  rewrite !elem_of_cons, elem_of_nil in Hk.
  unfold Store.opt_str, Store.opt_datetime in Hk.
  repeat (destruct Hk as [Hk|Hk]); try contradiction;
    injection Hk as _ Hv; repeat case_match; discriminate.
Qed.

Lemma listed_normalized r : normalized (id_to_str (Store.document r)).
Proof.
  rewrite id_to_str_document. split; [|split].
  - exists (str (Store.stored_id r)). split.
    + apply lookup_insert_eq.
    + apply str_oid_nonempty.
  - reflexivity.
  - intros k o. destruct (decide (k = "id")) as [->|Hk].
    + rewrite lookup_insert_eq. discriminate.
    + rewrite lookup_insert_ne by congruence. apply model_dump_no_oid.
Qed.

Lemma listed_from_store (p : dict -> bool) n (l : list Store.stored) d :
  d ∈ map id_to_str (take n (List.filter p (map Store.document l))) ->
  exists r, r ∈ l /\ d = id_to_str (Store.document r).
Proof.
  intros Hd. apply list_elem_of_fmap in Hd as [d0 [-> Hd]].
  apply elem_of_take in Hd as [i [Hd _]]. apply list_elem_of_lookup_2 in Hd.
  apply list_elem_of_In, List.filter_In in Hd as [Hd _].
  apply list_elem_of_In, list_elem_of_fmap in Hd as [r [-> Hr]].
  now exists r.
Qed.

(** An ingest on a reachable store: one insert, appended to the
    collection under the next identifier. *)
Lemma run_ingest_thought s payload :
  ThoughtCreate.modality payload ∈ ["text"; "image"; "link"; "voice"] ->
  let folder := smart_route_folder (ThoughtCreate.content payload)
                                   (ThoughtCreate.tags payload) in
  let doc := new_thought payload folder in
  let r := {| Store.stored_id := {| oid_value := Store.next_oid s |};
              Store.stored_doc := doc |} in
  run (ingest_thought payload) s
  = Outcome
      (inr {| IngestResponse.ok := true;
              IngestResponse.id := str (Store.stored_id r);
              IngestResponse.folder := folder |})
      {| Store.collections :=
           <["thought" := (Store.collection s "thought" ++ [r])%list]>
             (Store.collections s);
         Store.next_oid := Store.next_oid s + 1 |}
      [CalledCreate "thought" doc].
Proof.
  intros Hm folder doc r.
  destruct (ingest_thought_valid payload Hm) as [k [-> [_ Hk]]].
  unfold run. cbn [run_from create_document Store.database].
  unfold Store.insert. rewrite Hk. reflexivity.
Qed.

Lemma collection_after_insert s coll (l : list Store.stored) n :
  Store.collection
    {| Store.collections := <[coll := l]> (Store.collections s);
       Store.next_oid := n |} coll = l.
Proof. unfold Store.collection. cbn. now rewrite lookup_insert_eq. Qed.

(** [insert] keeps identifiers fresh while twelve bytes suffice. *)
Lemma fresh_ids_insert s coll data :
  Store.fresh_ids s ->
  (Store.next_oid s + 1 < 2 ^ 96)%N ->
  Store.fresh_ids (snd (Store.insert None coll data s)).
Proof.
  intros [_ Hold] Hroom. unfold Store.insert. cbn [snd].
  split; [exact Hroom|]. intros c r Hr. cbn [Store.next_oid].
  unfold Store.collection in Hr. cbn [Store.collections] in Hr.
  destruct (decide (coll = c)) as [->|Hne].
  - rewrite lookup_insert_eq in Hr. cbn [default] in Hr.
    apply elem_of_app in Hr as [Hr|Hr].
    + specialize (Hold c r Hr). lia.
    + apply list_elem_of_singleton in Hr as ->. cbn. lia.
  - rewrite lookup_insert_ne in Hr by assumption.
    specialize (Hold c r Hr). lia.
Qed.

Lemma fresh_ids_empty : Store.fresh_ids Store.empty.
Proof.
  split; [reflexivity|]. intros c r Hr.
  unfold Store.collection, Store.empty in Hr. cbn in Hr.
  rewrite lookup_empty in Hr. now apply elem_of_nil in Hr.
Qed.

End CreateThenList.

(** C7.  Every record of a listing carries its identifier as a non-empty
    string under [id]; nothing is left under [_id] and no field of the
    record is an ObjectId.  An ingest returns a string of 24 characters,
    which is the [id] of the record just written as every later listing
    shows it, with the fields it was written with.  That record is listed
    whenever the filter is absent or its own folder and the limit exceeds
    the number of documents stored before, and no other listed record
    carries this [id]. *)
Theorem C7_identifier_normalization `{Repr} :
  (forall (s : Store.t) folder limit,
      exists items,
        result (run (list_thoughts folder limit) s)
        = inr {| ListResponse.ok := true; ListResponse.items := items |}
        /\ Forall normalized items)
  /\ (forall (s : Store.t) (payload : ThoughtCreate.t),
        ThoughtCreate.modality payload ∈ ["text"; "image"; "link"; "voice"] ->
        exists (i : string) (s' : Store.t) (r : Store.stored),
          run (ingest_thought payload) s
          = Outcome (inr {| IngestResponse.ok := true;
                            IngestResponse.id := i;
                            IngestResponse.folder :=
                              smart_route_folder (ThoughtCreate.content payload)
                                                 (ThoughtCreate.tags payload) |})
              s' [CalledCreate "thought" (Store.stored_doc r)]
          /\ String.length i = 24%nat /\ i <> ""
          /\ Store.collection s' "thought"
             = (Store.collection s "thought" ++ [r])%list
          /\ Store.stored_doc r
             = new_thought payload
                 (smart_route_folder (ThoughtCreate.content payload)
                                     (ThoughtCreate.tags payload))
          /\ id_to_str (Store.document r) !! "id" = Some (VStr i)
          /\ (forall k, k <> "id" ->
                id_to_str (Store.document r) !! k
                = Store.model_dump (Store.stored_doc r) !! k)
          /\ (forall folder limit items,
                result (run (list_thoughts folder limit) s')
                = inr {| ListResponse.ok := true; ListResponse.items := items |} ->
                ((folder = None \/ folder = Thought.folder (Store.stored_doc r)) ->
                 Z.of_nat (length (Store.collection s "thought")) < limit ->
                 id_to_str (Store.document r) ∈ items)
                /\ (Store.fresh_ids s ->
                    forall d, d ∈ items -> d !! "id" = Some (VStr i) ->
                              d = id_to_str (Store.document r)))).
Proof.
  split.
  - intros s folder limit. eexists. split.
    + now rewrite (run_list_thoughts s folder limit).
    + apply Forall_forall. intros d Hd.
      apply listed_from_store in Hd as [r [_ ->]]. apply listed_normalized.
  - intros s payload Hm.
    set (fo := smart_route_folder (ThoughtCreate.content payload)
                                  (ThoughtCreate.tags payload)).
    set (r := {| Store.stored_id := {| oid_value := Store.next_oid s |};
                 Store.stored_doc := new_thought payload fo |}).
    set (s' := {| Store.collections :=
                    <["thought" := (Store.collection s "thought" ++ [r])%list]>
                      (Store.collections s);
                  Store.next_oid := Store.next_oid s + 1 |}).
    assert (Hcoll : Store.collection s' "thought"
                    = (Store.collection s "thought" ++ [r])%list)
      by apply collection_after_insert.
    exists (str (Store.stored_id r)), s', r.
    split; [exact (run_ingest_thought s payload Hm)|].
    split; [apply str_oid_length|]. split; [apply str_oid_nonempty|].
    split; [exact Hcoll|]. split; [reflexivity|].
    split; [rewrite id_to_str_document; apply lookup_insert_eq|].
    split; [intros k Hk; rewrite id_to_str_document;
            now rewrite lookup_insert_ne by congruence|].
    intros folder limit items Hrun.
    rewrite (run_list_thoughts s' folder limit) in Hrun.
    cbn [result] in Hrun. injection Hrun as <-. rewrite Hcoll. split.
    + intros Hfilter Hlimit. apply list_elem_of_fmap.
      exists (Store.document r). split; [reflexivity|].
      rewrite take_ge.
      * apply list_elem_of_In, List.filter_In. split.
        -- apply list_elem_of_In, list_elem_of_fmap. exists r. split; [reflexivity|].
           apply elem_of_app. right. apply list_elem_of_here.
        -- destruct Hfilter as [->| ->]; [apply matches_empty|].
           cbn [Store.stored_doc r new_thought Thought.folder].
           rewrite (folder_filter_some fo (route_nonempty _ _)), matches_document.
           apply in_folder_spec. reflexivity.
      * etransitivity; [apply List.filter_length_le|].
        rewrite length_map, length_app. cbn [length]. lia.
    + intros [Hbound Hold] d Hd Hid.
      apply listed_from_store in Hd as [r' [Hr' ->]].
      rewrite id_to_str_document, lookup_insert_eq in Hid.
      assert (Hstr : str (Store.stored_id r') = str (Store.stored_id r))
        by congruence.
      apply elem_of_app in Hr' as [Hr'|Hr'].
      * exfalso. specialize (Hold "thought" r' Hr').
        apply str_oid_inj in Hstr; [|lia|exact Hbound].
        cbn in Hstr. lia.
      * now apply list_elem_of_singleton in Hr' as ->.
Qed.

Lemma fresh_ids_store2 : Store.fresh_ids store2.
Proof.
  assert (H1 : Store.fresh_ids store1).
  { apply (fresh_ids_insert Store.empty "thought"
             (new_thought (sample_payload "todo: water plants" [] "text") "tasks"));
      [apply fresh_ids_empty | reflexivity]. }
  apply (fresh_ids_insert store1 "thought"
           (new_thought (sample_payload "an article on ferns" ["Read"] "link") "reads"));
    [exact H1 | reflexivity].
Qed.

Lemma C7_identifier_normalization_witness :
  exists i s' r,
    run (ingest_thought (sample_payload "a new concept" [] "voice")) store2
    = Outcome (inr {| IngestResponse.ok := true;
                      IngestResponse.id := i;
                      IngestResponse.folder := "ideas" |})
        s' [CalledCreate "thought" (Store.stored_doc r)]
    /\ String.length i = 24%nat
    /\ @id_to_str no_repr (Store.document r) !! "id" = Some (VStr i)
    /\ (forall items,
          result (run (@list_thoughts no_repr (Some "ideas") 3) s')
          = inr {| ListResponse.ok := true; ListResponse.items := items |} ->
          @id_to_str no_repr (Store.document r) ∈ items
          /\ forall d, d ∈ items -> d !! "id" = Some (VStr i) ->
                       d = @id_to_str no_repr (Store.document r)).
Proof.
  destruct (proj2 (@C7_identifier_normalization no_repr) store2
              (sample_payload "a new concept" [] "voice"))
    as (i & s' & r & Hrun & Hlen & _ & _ & Hdoc & Hid & _ & Hlist).
  - apply in_list_spec. vm_compute. reflexivity.
  - exists i, s', r. split; [exact Hrun|]. split; [exact Hlen|]. split; [exact Hid|].
    intros items Hitems. destruct (Hlist (Some "ideas") 3 items Hitems) as [Hin Huniq].
    split.
    + apply Hin; [right; now rewrite Hdoc | vm_compute; reflexivity].
    + apply Huniq. exact fresh_ids_store2.
Defined.

Example ingested_id :
  result (run (ingest_thought (sample_payload "a new concept" [] "voice")) store2)
  = inr {| IngestResponse.ok := true;
           IngestResponse.id := "000000000000000000000002";
           IngestResponse.folder := "ideas" |}.
Proof. vm_compute. reflexivity. Qed.

(** * Further properties of the code *)

(** ** The router's decision table *)

Section RouterTable.

Import PyStr.

Implicit Types (text : option string) (tags : option (list string)).

Lemma any_in_false text_l kws :
  (forall k, In k kws -> contains k text_l = false) -> any_in text_l kws = false.
Proof.
  intros Hnone. unfold any_in. apply not_true_is_false. intros Hex.
  apply existsb_exists in Hex as [k [Hk Hc]]. rewrite (Hnone k Hk) in Hc. discriminate.
Qed.

Lemma in_set_false k (l : list string) :
  k ∉ map lower l -> in_set k (tagset_of (Some l)) = false.
Proof.
  intros Hk. apply not_true_is_false. intros Hin.
  apply in_tagset in Hin. now rewrite or_list_some in Hin.
Qed.

Lemma str_app_assoc (a b c : string) : (a ++ b) ++ c = a ++ b ++ c.
Proof.
  induction a as [|x a IH]; [reflexivity|].
  change (String x ((a ++ b) ++ c) = String x (a ++ b ++ c)). now rewrite IH.
Qed.

(** Containment survives text added on either side. *)
Lemma contains_extend k pre s post :
  contains k s = true -> contains k (pre ++ s ++ post) = true.
Proof.
  rewrite !contains_spec. intros [a [b ->]]. exists (pre ++ a), (b ++ post).
  now rewrite !str_app_assoc.
Qed.

Lemma rule_holds_mono (small big : string) (l l' : list string) (r : rule) pre post :
  big = pre ++ small ++ post ->
  (forall t, t ∈ l -> t ∈ l') ->
  rule_holds (lower small) (tagset_of (Some l)) r = true ->
  rule_holds (lower big) (tagset_of (Some l')) r = true.
Proof.
  intros -> Hsub. unfold rule_holds. rewrite !orb_true_iff. intros [Hkw|Htag].
  - left. unfold any_in in *. apply existsb_exists in Hkw as [k [Hk Hc]].
    apply existsb_exists. exists k. split; [assumption|].
    rewrite !lower_app. now apply contains_extend.
  - right. apply in_tagset in Htag. apply in_tagset.
    rewrite or_list_some in *.
    apply list_elem_of_fmap in Htag as [t [Ht Hin]].
    apply list_elem_of_fmap. exists t. split; [assumption | now apply Hsub].
Qed.

End RouterTable.

(** X1.  The complete decision table of the router: the folder of a rule
    is returned exactly when that rule holds and none before it does, and
    ["inbox"] exactly when no rule holds. *)
Theorem X1_route_decision_table (text : option string) (tags : option (list string)) :
  (forall pre r post,
      rules = (pre ++ r :: post)%list ->
      (smart_route_folder text tags = rule_folder r
       <-> Forall (fun q => rule_holds (PyStr.lower (or_str text "")) (tagset_of tags) q
                            = false) pre
           /\ rule_holds (PyStr.lower (or_str text "")) (tagset_of tags) r = true))
  /\ (smart_route_folder text tags = "inbox"
      <-> Forall (fun q => rule_holds (PyStr.lower (or_str text "")) (tagset_of tags) q
                           = false) rules).
Proof.
  rewrite route_first_match. unfold first_match, rules. cbn [find].
  set (tl := PyStr.lower (or_str text "")). set (ts := tagset_of tags).
  destruct (rule_holds tl ts tasks_rule) eqn:H1;
    destruct (rule_holds tl ts ideas_rule) eqn:H2;
    destruct (rule_holds tl ts notes_rule) eqn:H3;
    destruct (rule_holds tl ts reads_rule) eqn:H4;
    cbn [rule_folder tasks_rule ideas_rule notes_rule reads_rule];
    (split;
     [ intros pre r post Hsplit;
       destruct pre as [|a [|b [|c [|d pre]]]]; cbn [app] in Hsplit;
       injection Hsplit; intros; subst;
       try (destruct pre; discriminate);
       cbn [rule_folder tasks_rule ideas_rule notes_rule reads_rule];
       (split;
        [ intros Heq; try discriminate;
          (split; [repeat constructor; assumption | assumption])
        | intros [Hpre Hr]; try reflexivity;
          repeat match goal with
                 | H : Forall _ (_ :: _) |- _ => inversion H; subst; clear H
                 end; congruence ])
     | split;
       [ intros Heq; try discriminate; repeat constructor; assumption
       | intros Hall; try reflexivity;
         repeat match goal with
                | H : Forall _ (_ :: _) |- _ => inversion H; subst; clear H
                end; congruence ] ]).
Qed.

Lemma X1_route_decision_table_witness :
  (smart_route_folder (Some "read the meeting notes") None = "notes"
   <-> Forall (fun q => rule_holds (PyStr.lower (or_str (Some "read the meeting notes") ""))
                          (tagset_of None) q = false) [tasks_rule; ideas_rule]
       /\ rule_holds (PyStr.lower (or_str (Some "read the meeting notes") ""))
            (tagset_of None) notes_rule = true).
Proof.
  apply (proj1 (X1_route_decision_table (Some "read the meeting notes") None)
           [tasks_rule; ideas_rule] notes_rule [reads_rule]).
  reflexivity.
Defined.

(** X2.  Tags are matched whole: a tag list none of whose lowercased
    elements is "task", "idea", "notes" or "read" is routed like no tag
    list at all. *)
Theorem X2_unknown_tags_ignored (text : option string) (l : list string) :
  (forall t, t ∈ l -> PyStr.lower t ∉ ["task"; "idea"; "notes"; "read"]) ->
  smart_route_folder text (Some l) = smart_route_folder text None.
Proof.
  intros Hnone.
  assert (Hout : forall k, In k ["task"; "idea"; "notes"; "read"] ->
                           in_set k (tagset_of (Some l)) = false).
  { intros k Hk. apply in_set_false. intros Hin.
    apply list_elem_of_fmap in Hin as [t [-> Ht]].
    apply (Hnone t Ht). now apply list_elem_of_In. }
  unfold smart_route_folder.
  rewrite (Hout "task"), (Hout "idea"), (Hout "notes"), (Hout "read")
    by (simpl; tauto).
  reflexivity.
Qed.

Lemma X2_unknown_tags_ignored_witness :
  smart_route_folder (Some "a concept") (Some ["Tasks"; "note"; "reading"])
  = smart_route_folder (Some "a concept") None.
Proof.
  apply X2_unknown_tags_ignored. intros t Ht Hin.
  rewrite !elem_of_cons, elem_of_nil in Ht.
  apply list_elem_of_In in Hin.
  destruct Ht as [->|[->|[->|[]]]]; vm_compute in Hin;
    repeat (destruct Hin as [Hin|Hin]; [discriminate|]); exact Hin.
Defined.

(** X3.  Content whose lowercase form contains none of the keywords of
    any rule is routed by the tags alone, like absent content. *)
Theorem X3_no_keyword_routes_by_tags (content : string) (tags : option (list string)) :
  (forall k, In k (flat_map rule_keywords rules) ->
             PyStr.contains k (PyStr.lower content) = false) ->
  smart_route_folder (Some content) tags = smart_route_folder None tags.
Proof.
  intros Hnone.
  assert (Hkw : forall r, In r rules ->
                  any_in (PyStr.lower content) (rule_keywords r) = false).
  { intros r Hr. apply any_in_false. intros k Hk. apply Hnone.
    apply in_flat_map. now exists r. }
  unfold smart_route_folder. rewrite or_str_some.
  change ["todo"; "task"; "next"; "due"; "deadline"] with (rule_keywords tasks_rule).
  change ["idea"; "concept"; "brainstorm"; "inspiration"] with (rule_keywords ideas_rule).
  change ["meeting"; "call"; "note"; "summary"] with (rule_keywords notes_rule).
  change ["article"; "read"; "bookmark"; "link"] with (rule_keywords reads_rule).
  rewrite (Hkw tasks_rule), (Hkw ideas_rule), (Hkw notes_rule), (Hkw reads_rule)
    by (simpl; tauto).
  reflexivity.
Qed.

Lemma X3_no_keyword_routes_by_tags_witness :
  smart_route_folder (Some "Buy milk") (Some ["Idea"])
  = smart_route_folder None (Some ["Idea"]).
Proof.
  apply X3_no_keyword_routes_by_tags. intros k Hk. cbn in Hk.
  repeat (destruct Hk as [<-|Hk]; [vm_compute; reflexivity|]). contradiction.
Defined.

(** X4.  The order of the rules is the order of the registry's
    priorities: whenever a rule holds, the folder returned has at least
    the priority of that rule's folder, which is above the priority of
    the inbox. *)
Theorem X4_highest_priority_wins
    (text : option string) (tags : option (list string)) (r : rule) :
  r ∈ rules ->
  rule_holds (PyStr.lower (or_str text "")) (tagset_of tags) r = true ->
  exists p q,
    folder_priority (rule_folder r) = Some p
    /\ folder_priority (smart_route_folder text tags) = Some q
    /\ folder_priority "inbox" = Some 0
    /\ 0 < p <= q.
Proof.
  intros Hr Hholds. rewrite route_first_match. unfold first_match, rules in *.
  cbn [find].
  set (tl := PyStr.lower (or_str text "")) in *. set (ts := tagset_of tags) in *.
  rewrite !elem_of_cons, elem_of_nil in Hr.
  destruct (rule_holds tl ts tasks_rule) eqn:H1;
    destruct (rule_holds tl ts ideas_rule) eqn:H2;
    destruct (rule_holds tl ts notes_rule) eqn:H3;
    destruct (rule_holds tl ts reads_rule) eqn:H4;
    destruct Hr as [->|[->|[->|[->|[]]]]]; try congruence;
    (do 2 eexists; split; [reflexivity|]; split; [reflexivity|];
     split; [reflexivity | cbn; lia]).
Qed.

Lemma X4_highest_priority_wins_witness :
  exists p q,
    folder_priority (rule_folder reads_rule) = Some p
    /\ folder_priority (smart_route_folder (Some "an idea to read up on") None) = Some q
    /\ folder_priority "inbox" = Some 0
    /\ 0 < p <= q.
Proof.
  apply (X4_highest_priority_wins (Some "an idea to read up on") None reads_rule).
  - apply list_elem_of_In. simpl. tauto.
  - vm_compute. reflexivity.
Defined.

(** X5.  More input never lowers the priority of the folder: text added
    before or after the content, and tags added to the list, lead to a
    folder of the same or a higher registry priority. *)
Theorem X5_more_input_never_lowers_priority
    (content pre post : string) (l l' : list string) :
  (forall t, t ∈ l -> t ∈ l') ->
  exists p q,
    folder_priority (smart_route_folder (Some content) (Some l)) = Some p
    /\ folder_priority (smart_route_folder (Some (pre ++ content ++ post)) (Some l'))
       = Some q
    /\ p <= q.
Proof.
  intros Hsub.
  assert (Hmono : forall r,
             rule_holds (PyStr.lower content) (tagset_of (Some l)) r = true ->
             rule_holds (PyStr.lower (pre ++ content ++ post)) (tagset_of (Some l')) r
             = true).
  { intros r. now apply (rule_holds_mono content _ l l' r pre post). }
  rewrite !route_first_match, !or_str_some. unfold first_match, rules. cbn [find].
  pose proof (Hmono tasks_rule) as M1. pose proof (Hmono ideas_rule) as M2.
  pose proof (Hmono notes_rule) as M3. pose proof (Hmono reads_rule) as M4.
  destruct (rule_holds (PyStr.lower content) _ tasks_rule);
    destruct (rule_holds (PyStr.lower content) _ ideas_rule);
    destruct (rule_holds (PyStr.lower content) _ notes_rule);
    destruct (rule_holds (PyStr.lower content) _ reads_rule);
    try rewrite (M1 eq_refl); try rewrite (M2 eq_refl);
    try rewrite (M3 eq_refl); try rewrite (M4 eq_refl);
    clear M1 M2 M3 M4;
    repeat match goal with
           | |- context [if rule_holds ?a ?b ?c then _ else _] =>
               destruct (rule_holds a b c)
           end;
    (do 2 eexists; split; [reflexivity|]; split; [reflexivity | cbn; lia]).
Qed.

Lemma X5_more_input_never_lowers_priority_witness :
  exists p q,
    folder_priority (smart_route_folder (Some "bookmark") (Some ["misc"])) = Some p
    /\ folder_priority
         (smart_route_folder (Some ("call about " ++ "bookmark" ++ "s"))
                             (Some ["x"; "misc"; "y"])) = Some q
    /\ p <= q.
Proof.
  apply X5_more_input_never_lowers_priority. intros t Ht.
  apply list_elem_of_singleton in Ht as ->.
  apply list_elem_of_In. simpl. tauto.
Defined.

(** X6.  The router reaches every folder of the registry and nothing
    else: a key is returned for some content and tags exactly when
    [get_folders] lists it. *)
Theorem X6_router_range (k : string) :
  (exists text tags, smart_route_folder text tags = k)
  <-> k ∈ map Folder.key folders.
Proof.
  rewrite list_elem_of_In. cbn [map folders Folder.key In]. split.
  - intros [text [tags <-]]. unfold smart_route_folder.
    repeat (destruct (_ || _); [tauto|]). tauto.
  - intros [<-|[<-|[<-|[<-|[<-|[]]]]]].
    + now exists None, None.
    + now exists (Some "idea"), None.
    + now exists (Some "todo"), None.
    + now exists (Some "note"), None.
    + now exists (Some "read"), None.
Qed.

(** ** Normalising the identifier of a document *)

Section IdToStr.

Context `{Repr}.

Implicit Types (d : dict) (v : value).

Lemma id_to_str_untouched d :
  (d !! "_id" = None \/ exists v, d !! "_id" = Some v /\ truthy v = false) ->
  id_to_str d = d.
Proof.
  unfold id_to_str. intros [-> | [v [-> ->]]]; reflexivity.
Qed.

Lemma id_to_str_moved d v :
  d !! "_id" = Some v -> truthy v = true ->
  id_to_str d = <["id" := VStr (str v)]> (delete "_id" d).
Proof. unfold id_to_str. now intros -> ->. Qed.

Lemma id_to_str_other_keys d k :
  k <> "_id" -> k <> "id" -> id_to_str d !! k = d !! k.
Proof.
  intros Hk1 Hk2. unfold id_to_str.
  destruct (d !! "_id") as [v|]; [|reflexivity].
  destruct (truthy v); [|reflexivity].
  rewrite lookup_insert_ne by congruence. now rewrite lookup_delete_ne by congruence.
Qed.

End IdToStr.

(** X7.  The filter [list_thoughts] sends to the database holds at most
    the key ["folder"], with the non-empty folder asked for as a string;
    it is empty exactly when the folder is absent or the empty string. *)
Theorem X7_folder_filter_shape (folder : option string) :
  (forall k v, folder_filter folder !! k = Some v ->
               k = "folder" /\ exists f, folder = Some f /\ f <> "" /\ v = VStr f)
  /\ (folder_filter folder = ∅ <-> folder = None \/ folder = Some "").
Proof.
  destruct folder as [[|c f]|]; cbn [folder_filter PyStr.truthy].
  - split; [intros k v Hk; now rewrite lookup_empty in Hk|].
    split; [now right | reflexivity].
  - split.
    + intros k v Hk. apply lookup_singleton_Some in Hk as [<- <-].
      split; [reflexivity|]. exists (String c f). now repeat split.
    + split.
      * intros Hempty. exfalso.
        apply (f_equal (fun m : dict => m !! "folder")) in Hempty.
        rewrite lookup_singleton_eq, lookup_empty in Hempty. discriminate.
      * intros [Hn|Hs]; discriminate.
  - split; [intros k v Hk; now rewrite lookup_empty in Hk|].
    split; [now left | reflexivity].
Qed.

Lemma X7_folder_filter_shape_witness :
  "folder" = "folder"
  /\ exists f, Some "ideas" = Some f /\ f <> "" /\ VStr "ideas" = VStr f.
Proof.
  apply (proj1 (X7_folder_filter_shape (Some "ideas")) "folder" (VStr "ideas")).
  reflexivity.
Defined.

(** X8.  Normalising twice is normalising once: a document that went
    through [id_to_str] is left as it is by a second pass. *)
Theorem X8_id_to_str_idempotent `{Repr} (d : dict) :
  id_to_str (id_to_str d) = id_to_str d.
Proof.
  destruct (d !! "_id") as [v|] eqn:Hid.
  - destruct (truthy v) eqn:Hv.
    + rewrite (id_to_str_moved d v Hid Hv). apply id_to_str_untouched. left.
      rewrite lookup_insert_ne by discriminate. apply lookup_delete_eq.
    + rewrite (id_to_str_untouched d); [|right; now exists v].
      apply id_to_str_untouched. right. now exists v.
  - rewrite (id_to_str_untouched d); [|now left].
    apply id_to_str_untouched. now left.
Qed.

(** X9.  [id_to_str] touches only the keys ["_id"] and ["id"]: every
    other field of the document is kept as it is, present or absent. *)
Theorem X9_id_to_str_keeps_other_fields `{Repr} (d : dict) (k : string) :
  k <> "_id" -> k <> "id" -> id_to_str d !! k = d !! k.
Proof. apply id_to_str_other_keys. Qed.

Lemma X9_id_to_str_keeps_other_fields_witness :
  @id_to_str no_repr
     (<["_id" := VOid {| oid_value := 7 |}]> {["folder" := VStr "tasks"]}) !! "folder"
  = (<["_id" := VOid {| oid_value := 7 |}]> {["folder" := VStr "tasks"]} : dict)
      !! "folder".
Proof.
  apply (@X9_id_to_str_keeps_other_fields no_repr); discriminate.
Defined.

(** X10.  What happens to the identifier.  A document with no ["_id"],
    or with a falsy one (None, False, the empty string, an empty list or
    dict), passes unchanged: it gets no ["id"] and keeps its falsy
    ["_id"].  A truthy ["_id"] is removed and its [str] is written under
    ["id"], replacing whatever the document held there.  In no case does
    a truthy ["_id"] remain. *)
Theorem X10_id_to_str_on_identifier `{Repr} (d : dict) :
  (d !! "_id" = None -> id_to_str d = d)
  /\ (forall v, d !! "_id" = Some v -> truthy v = false -> id_to_str d = d)
  /\ (forall v, d !! "_id" = Some v -> truthy v = true ->
        id_to_str d !! "id" = Some (VStr (str v))
        /\ id_to_str d !! "_id" = None)
  /\ (forall v, id_to_str d !! "_id" = Some v -> truthy v = false).
Proof.
  split; [|split; [|split]].
  - intros Hid. apply id_to_str_untouched. now left.
  - intros v Hid Hv. apply id_to_str_untouched. right. now exists v.
  - intros v Hid Hv. rewrite (id_to_str_moved d v Hid Hv). split.
    + apply lookup_insert_eq.
    + rewrite lookup_insert_ne by discriminate. apply lookup_delete_eq.
  - intros v. destruct (d !! "_id") as [w|] eqn:Hid.
    + destruct (truthy w) eqn:Hw.
      * rewrite (id_to_str_moved d w Hid Hw).
        rewrite lookup_insert_ne by discriminate. rewrite lookup_delete_eq.
        discriminate.
      * rewrite (id_to_str_untouched d); [|right; now exists w].
        rewrite Hid. now intros [= <-].
    + rewrite (id_to_str_untouched d); [|now left]. rewrite Hid. discriminate.
Qed.

Lemma X10_id_to_str_on_identifier_witness :
  (@id_to_str no_repr {["_id" := VStr ""]} = {["_id" := VStr ""]})
  /\ (@id_to_str no_repr
        (<["_id" := VStr "abc"]> {["id" := VStr "mine"]}) !! "id"
      = Some (VStr "abc")
      /\ @id_to_str no_repr
           (<["_id" := VStr "abc"]> {["id" := VStr "mine"]}) !! "_id" = None).
Proof.
  split.
  - apply (proj1 (proj2 (@X10_id_to_str_on_identifier no_repr {["_id" := VStr ""]}))
             (VStr "")); reflexivity.
  - apply (proj1 (proj2 (proj2 (@X10_id_to_str_on_identifier no_repr
                                  (<["_id" := VStr "abc"]> {["id" := VStr "mine"]}))))
             (VStr "abc")); reflexivity.
Defined.

(** ** The handlers, call by call *)

(** X11.  Whatever the database, [list_thoughts] answers with one item
    per document the query returned, in the same order, and each item
    agrees with its document on every field other than ["_id"] and
    ["id"]: nothing is dropped, added or reordered.  The only call made
    is that one query. *)
Theorem X11_list_one_item_per_document
    {S} `{Database S} `{Repr}
    (folder : option string) (limit : Z) (s s' : S) (docs : list dict) :
  get_documents "thought" (folder_filter folder) limit s = (inr docs, s') ->
  exists items,
    run (list_thoughts folder limit) s
    = Outcome (inr {| ListResponse.ok := true; ListResponse.items := items |}) s'
        [CalledGet "thought" (folder_filter folder) limit]
    /\ length items = length docs
    /\ (forall i d, docs !! i = Some d ->
          exists d', items !! i = Some d'
                     /\ forall k, k <> "_id" -> k <> "id" -> d' !! k = d !! k).
Proof.
  intros Hq. exists (map id_to_str docs). split; [|split].
  - unfold run, list_thoughts. cbn [run_from]. now rewrite Hq.
  - apply length_map.
  - intros i d Hd. exists (id_to_str d). split.
    + change (map id_to_str docs) with (id_to_str <$> docs).
      now rewrite list_lookup_fmap, Hd.
    + intros k Hk1 Hk2. now apply id_to_str_other_keys.
Qed.

Lemma X11_list_one_item_per_document_witness :
  exists items,
    run (@list_thoughts no_repr (Some "tasks") 5) store2
    = Outcome (inr {| ListResponse.ok := true; ListResponse.items := items |}) store2
        [CalledGet "thought" (folder_filter (Some "tasks")) 5]
    /\ length items = 1%nat.
Proof.
  destruct (@X11_list_one_item_per_document Store.t Store.database no_repr
              (Some "tasks") 5 store2 store2
              (take 1 (map Store.document (Store.collection store2 "thought"))))
    as [items [Hrun [Hlen _]]].
  - vm_compute. reflexivity.
  - exists items. split; [exact Hrun | exact Hlen].
Defined.

(** X12.  Whatever the database, documents that come back with an
    ObjectId under ["_id"] are listed with that identifier under ["id"]
    as its 24-character string, and with no ["_id"]. *)
Theorem X12_list_object_ids_become_strings
    {S} `{Database S} `{Repr}
    (folder : option string) (limit : Z) (s s' : S) (docs : list dict) :
  get_documents "thought" (folder_filter folder) limit s = (inr docs, s') ->
  (forall d, d ∈ docs -> exists o, d !! "_id" = Some (VOid o)) ->
  exists items,
    result (run (list_thoughts folder limit) s)
    = inr {| ListResponse.ok := true; ListResponse.items := items |}
    /\ Forall (fun d' => exists i, d' !! "id" = Some (VStr i)
                                   /\ String.length i = 24%nat
                                   /\ d' !! "_id" = None) items
    /\ (forall i d o, docs !! i = Some d -> d !! "_id" = Some (VOid o) ->
          exists d', items !! i = Some d' /\ d' !! "id" = Some (VStr (str o))).
Proof.
  intros Hq Hoid. exists (map id_to_str docs). split; [|split].
  - unfold run, list_thoughts. cbn [run_from]. now rewrite Hq.
  - apply Forall_forall. intros d' Hd'.
    apply list_elem_of_fmap in Hd' as [d [-> Hd]].
    destruct (Hoid d Hd) as [o Ho].
    rewrite (id_to_str_moved d (VOid o) Ho eq_refl).
    exists (str o). split; [apply lookup_insert_eq|]. split; [apply str_oid_length|].
    rewrite lookup_insert_ne by discriminate. apply lookup_delete_eq.
  - intros i d o Hd Ho. exists (id_to_str d). split.
    + change (map id_to_str docs) with (id_to_str <$> docs).
      now rewrite list_lookup_fmap, Hd.
    + rewrite (id_to_str_moved d (VOid o) Ho eq_refl). apply lookup_insert_eq.
Qed.

Lemma X12_list_object_ids_become_strings_witness :
  exists items,
    result (run (@list_thoughts no_repr None 5) store2)
    = inr {| ListResponse.ok := true; ListResponse.items := items |}
    /\ Forall (fun d' => exists i, d' !! "id" = Some (VStr i)
                                   /\ String.length i = 24%nat
                                   /\ d' !! "_id" = None) items.
Proof.
  destruct (@X12_list_object_ids_become_strings Store.t Store.database no_repr
              None 5 store2 store2
              (map Store.document (Store.collection store2 "thought")))
    as [items [Hrun [Hall _]]].
  - vm_compute. reflexivity.
  - intros d Hd. apply list_elem_of_fmap in Hd as [r [-> _]].
    exists (Store.stored_id r). apply lookup_insert_eq.
  - exists items. split; [exact Hrun | exact Hall].
Defined.

(** X13.  Whatever the database, [ingest_thought] never queries and
    writes at most once.  Either the modality is refused, no call is made
    and the state is untouched; or exactly one document is inserted into
    "thought", the state is the one that insert left, and the document
    carries the payload's modality and content, its tags as given (the
    empty list when absent), a folder of the registry, the status
    "active" and no pin. *)
Theorem X13_ingest_writes_at_most_once
    {S} `{Database S} (payload : ThoughtCreate.t) (s : S) :
  ((ThoughtCreate.modality payload ∉ ["text"; "image"; "link"; "voice"])
   /\ calls (run (ingest_thought payload) s) = []
   /\ final (run (ingest_thought payload) s) = s)
  \/ ((ThoughtCreate.modality payload ∈ ["text"; "image"; "link"; "voice"])
      /\ exists doc f,
           calls (run (ingest_thought payload) s) = [CalledCreate "thought" doc]
           /\ final (run (ingest_thought payload) s)
              = snd (create_document "thought" doc s)
           /\ Thought.modality doc = ThoughtCreate.modality payload
           /\ Thought.content doc = ThoughtCreate.content payload
           /\ Thought.tags doc = or_list (ThoughtCreate.tags payload) []
           /\ Thought.folder doc = Some f
           /\ (f ∈ map Folder.key folders)
           /\ Thought.status doc = "active"
           /\ Thought.pinned doc = false).
Proof.
  destruct (in_list (ThoughtCreate.modality payload)
              ["text"; "image"; "link"; "voice"]) eqn:Hm.
  - right. apply in_list_spec in Hm. split; [exact Hm|].
    destruct (ingest_thought_valid payload Hm) as [k [-> [Hfail Hok]]].
    set (fo := smart_route_folder (ThoughtCreate.content payload)
                                  (ThoughtCreate.tags payload)).
    exists (new_thought payload fo), fo.
    assert (Hreg : fo ∈ map Folder.key folders).
    { apply list_elem_of_In. cbn [map folders Folder.key In].
      unfold fo, smart_route_folder.
      repeat (destruct (_ || _); [tauto|]). tauto. }
    unfold run. cbn [run_from].
    destruct (create_document "thought" (new_thought payload fo) s) as [[e|i] s'];
      [rewrite Hfail | rewrite Hok]; cbn [run_from calls final snd app];
      repeat split; try reflexivity; exact Hreg.
  - left. split.
    + intros Hin. apply in_list_spec in Hin. congruence.
    + unfold ingest_thought. rewrite Hm. split; reflexivity.
Qed.

(** X14.  Whatever the database, when the insert succeeds the response
    carries the identifier exactly as the database returned it, and the
    folder it reports is the folder written into the document. *)
Theorem X14_ingest_returns_database_id
    {S} `{Database S} (payload : ThoughtCreate.t) (s s' : S) (i : string) (doc : Thought.t) :
  ThoughtCreate.modality payload ∈ ["text"; "image"; "link"; "voice"] ->
  doc = new_thought payload
          (smart_route_folder (ThoughtCreate.content payload)
                              (ThoughtCreate.tags payload)) ->
  create_document "thought" doc s = (inr i, s') ->
  exists f,
    run (ingest_thought payload) s
    = Outcome (inr {| IngestResponse.ok := true;
                      IngestResponse.id := i;
                      IngestResponse.folder := f |}) s'
        [CalledCreate "thought" doc]
    /\ Thought.folder doc = Some f.
Proof.
  intros Hm -> Hc.
  destruct (ingest_thought_valid payload Hm) as [k [-> [_ Hok]]].
  eexists. split; [|reflexivity].
  unfold run. cbn [run_from]. now rewrite Hc, Hok.
Qed.

Lemma X14_ingest_returns_database_id_witness :
  exists f,
    run (ingest_thought (sample_payload "due friday" [] "text")) store2
    = Outcome (inr {| IngestResponse.ok := true;
                      IngestResponse.id := "000000000000000000000002";
                      IngestResponse.folder := f |})
        (snd (Store.insert None "thought"
                (new_thought (sample_payload "due friday" [] "text") "tasks") store2))
        [CalledCreate "thought"
           (new_thought (sample_payload "due friday" [] "text") "tasks")]
    /\ Thought.folder (new_thought (sample_payload "due friday" [] "text") "tasks")
       = Some f.
Proof.
  apply (@X14_ingest_returns_database_id Store.t Store.database
           (sample_payload "due friday" [] "text") store2).
  - apply in_list_spec. vm_compute. reflexivity.
  - vm_compute. reflexivity.
  - vm_compute. reflexivity.
Defined.

(** ** The health check *)

Section HealthCheck.

Lemma str_take_length n s : (String.length (str_take n s) <= n)%nat.
Proof.
  revert s. induction n as [|n IH]; intros [|c s]; cbn [str_take String.length]; try lia.
  specialize (IH s). lia.
Qed.

Lemma str_take_prefix n s : exists rest, s = str_take n s ++ rest.
Proof.
  revert s. induction n as [|n IH]; intros s.
  - now exists s.
  - destruct s as [|c s]; [now exists ""|].
    destruct (IH s) as [rest Hrest]. exists rest.
    cbn [str_take]. change (String c s = String c (str_take n s ++ rest)).
    now rewrite <- Hrest.
Qed.

Lemma str_take_all n s : (String.length s <= n)%nat -> str_take n s = s.
Proof.
  revert s. induction n as [|n IH]; intros [|c s] Hlen; cbn [str_take]; try reflexivity.
  - cbn [String.length] in Hlen. lia.
  - cbn [String.length] in Hlen. rewrite IH by lia. reflexivity.
Qed.

Lemma str_take_length_min n s :
  String.length (str_take n s) = Nat.min n (String.length s).
Proof.
  revert s. induction n as [|n IH]; intros [|c s]; cbn [str_take String.length];
    try reflexivity.
  rewrite IH. reflexivity.
Qed.

(** A prefix is determined by its length. *)
Lemma prefix_is_str_take (m rest : string) :
  str_take (String.length m) (m ++ rest) = m.
Proof.
  induction m as [|c m IH]; [reflexivity|].
  change (String c (str_take (String.length m) (m ++ rest)) = String c m).
  now rewrite IH.
Qed.

End HealthCheck.

(** X15.  [test_database] reports at most ten collection names: the
    first ten the database lists, in its order.  Any name reported means
    that a database is configured, that the listing succeeded and that
    the status is "Available" and "Connected". *)
Theorem X15_health_lists_at_most_ten (db : option DbHandle) :
  (length (TestResponse.collections (test_database db)) <= 10)%nat
  /\ (forall h names,
        db = Some h -> list_collection_names h = inr names ->
        TestResponse.collections (test_database db) = take 10 names)
  /\ (TestResponse.collections (test_database db) <> [] ->
      exists h names,
        db = Some h /\ list_collection_names h = inr names
        /\ TestResponse.database (test_database db) = DbAvailable
        /\ TestResponse.connection (test_database db) = Connected).
Proof.
  destruct db as [[[e|names]]|]; cbn [test_database list_collection_names
    TestResponse.collections TestResponse.database TestResponse.connection].
  - split; [cbn; lia|]. split; [intros h names [= <-]; discriminate|].
    intros Hne. now contradiction Hne.
  - split; [rewrite length_take; lia|].
    split; [now intros h names' [= <-] [= <-]|].
    intros _. now exists {| list_collection_names := inr names |}, names.
  - split; [cbn; lia|]. split; [intros h names; discriminate|].
    intros Hne. now contradiction Hne.
Qed.

Lemma X15_health_lists_at_most_ten_witness :
  TestResponse.collections
    (test_database
       (Some {| list_collection_names :=
                  inr ["a"; "b"; "c"; "d"; "e"; "f"; "g"; "h"; "i"; "j"; "k"; "l"] |}))
  = take 10 ["a"; "b"; "c"; "d"; "e"; "f"; "g"; "h"; "i"; "j"; "k"; "l"].
Proof.
  apply (proj1 (proj2 (X15_health_lists_at_most_ten _))
           {| list_collection_names :=
                inr ["a"; "b"; "c"; "d"; "e"; "f"; "g"; "h"; "i"; "j"; "k"; "l"] |});
    reflexivity.
Defined.

(** X16.  When listing the collections raises, [test_database] still
    returns: the status is "Error: " followed by exactly the first 80
    characters of the exception's message (all of it when it is shorter),
    no collection is reported, and the connection status written before
    the failure stays "Connected". *)
Theorem X16_health_error_keeps_connected (h : DbHandle) (e : Exception) :
  list_collection_names h = inl e ->
  TestResponse.connection (test_database (Some h)) = Connected
  /\ TestResponse.collections (test_database (Some h)) = []
  /\ exists m rest,
       TestResponse.database (test_database (Some h)) = DbError m
       /\ exc_message e = m ++ rest
       /\ String.length m = Nat.min 80 (String.length (exc_message e))
       /\ ((String.length (exc_message e) <= 80)%nat -> m = exc_message e)
       /\ ((80 <= String.length (exc_message e))%nat -> String.length m = 80%nat).
Proof.
  intros He. unfold test_database. rewrite He.
  cbn [TestResponse.collections TestResponse.database TestResponse.connection].
  split; [reflexivity|]. split; [reflexivity|].
  destruct (str_take_prefix 80 (exc_message e)) as [rest Hrest].
  exists (str_take 80 (exc_message e)), rest.
  split; [reflexivity|]. split; [exact Hrest|].
  split; [apply str_take_length_min|]. split; [apply str_take_all|].
  intros Hlong. rewrite str_take_length_min. lia.
Qed.

Lemma X16_health_error_keeps_connected_witness :
  TestResponse.connection
    (test_database
       (Some {| list_collection_names := inl {| exc_message :=
          "0123456789012345678901234567890123456789012345678901234567890123456789012345678901234567890123456789" |} |}))
  = Connected
  /\ TestResponse.database
       (test_database
          (Some {| list_collection_names := inl {| exc_message :=
             "0123456789012345678901234567890123456789012345678901234567890123456789012345678901234567890123456789" |} |}))
     = DbError
         "01234567890123456789012345678901234567890123456789012345678901234567890123456789".
Proof.
  destruct (X16_health_error_keeps_connected
              {| list_collection_names := inl {| exc_message :=
                 "0123456789012345678901234567890123456789012345678901234567890123456789012345678901234567890123456789" |} |}
              {| exc_message :=
                 "0123456789012345678901234567890123456789012345678901234567890123456789012345678901234567890123456789" |}
              eq_refl)
    as [Hconn [_ [m [rest [Hdb [Hsplit [_ [_ Hlong]]]]]]]].
  split; [exact Hconn|]. rewrite Hdb. f_equal.
  cbn [exc_message] in Hsplit, Hlong.
  rewrite <- (prefix_is_str_take m rest), <- Hsplit, Hlong by (cbn; lia).
  reflexivity.
Defined.

(** X17.  The status table of [test_database].  The initial status "Not
    Available" is never returned; "Not Configured" and "Not Connected"
    are returned exactly when no database is configured, and "Available"
    exactly when the listing succeeded. *)
Theorem X17_health_status_table (db : option DbHandle) :
  TestResponse.database (test_database db) <> DbNotAvailable
  /\ (TestResponse.database (test_database db) = DbNotConfigured <-> db = None)
  /\ (TestResponse.connection (test_database db) = NotConnected <-> db = None)
  /\ (TestResponse.database (test_database db) = DbAvailable
      <-> exists h names, db = Some h /\ list_collection_names h = inr names).
Proof.
  destruct db as [[[e|names]]|]; cbn [test_database list_collection_names
    TestResponse.collections TestResponse.database TestResponse.connection].
  - split; [discriminate|]. split; [split; discriminate|].
    split; [split; discriminate|]. split; [discriminate|].
    intros [h [names [[= <-] Hn]]]. discriminate.
  - split; [discriminate|]. split; [split; discriminate|].
    split; [split; discriminate|]. split; [|reflexivity].
    intros _. now exists {| list_collection_names := inr names |}, names.
  - split; [discriminate|]. split; [split; reflexivity|].
    split; [split; reflexivity|]. split; [discriminate|].
    intros [h [names [Hn _]]]. discriminate.
Qed.
